(** * Resumify: token and plan accounting, resume store and generation workflow

    A shallow embedding of [models.py], of the routes of [app.py] that read
    or write the accounts, the purchase ledger and the resume table, and of
    the registration form of [forms.py].

    Conventions of the embedding:
    - Python [int] is [Z]; SQL tables keyed by an integer primary key are
      [gmap Z row]; a [str] is the [string] of its UTF-8 bytes;
    - a [datetime] is a number of microseconds ([Z]); a nullable column is an
      [option];
    - a route is a function from the database (and the request) to the
      committed database and the response (flashed message and body);
    - what the process reads from outside (clock, AI service, uploads) is an
      argument of the route. *)

From stdpp Require Import gmap strings list fin_maps pretty sorting.
From Stdlib Require Import ZArith Ascii String Lia.

Local Open Scope Z_scope.

(** ** Python string primitives *)

Module Py.

(** [bool(s)] for a [str]: the empty string is the only falsy one. *)
Definition truthy (s : string) : bool :=
  match s with
  | EmptyString => false
  | String _ _ => true
  end.

(** [str.isspace] on one ASCII character: TAB..CR, FS..US and the space. *)
Definition is_space (c : ascii) : bool :=
  let n := nat_of_ascii c in
  ((9 <=? n)%nat && (n <=? 13)%nat) || ((28 <=? n)%nat && (n <=? 32)%nat).

(** The white space characters encoded on two bytes: U+0085 and U+00A0. *)
Definition is_space2 (c d : ascii) : bool :=
  Ascii.eqb c "194" && (Ascii.eqb d "133" || Ascii.eqb d "160").

(** The white space characters encoded on three bytes: U+1680,
    U+2000..U+200A, U+2028, U+2029, U+202F, U+205F and U+3000. *)
Definition is_space3 (c d e : ascii) : bool :=
  (Ascii.eqb c "225" && Ascii.eqb d "154" && Ascii.eqb e "128") ||
  (Ascii.eqb c "226" && Ascii.eqb d "128" &&
   (((128 <=? N_of_ascii e)%N && (N_of_ascii e <=? 138)%N) ||
    Ascii.eqb e "168" || Ascii.eqb e "169" || Ascii.eqb e "175")) ||
  (Ascii.eqb c "226" && Ascii.eqb d "129" && Ascii.eqb e "159") ||
  (Ascii.eqb c "227" && Ascii.eqb d "128" && Ascii.eqb e "128").

(** What follows the white space character [s] starts with, if it does. *)
Definition space_head (s : string) : option string :=
  match s with
  | EmptyString => None
  | String c s1 =>
      if is_space c then Some s1
      else match s1 with
           | String d s2 =>
               if is_space2 c d then Some s2
               else match s2 with
                    | String e s3 => if is_space3 c d e then Some s3 else None
                    | EmptyString => None
                    end
           | EmptyString => None
           end
  end.

(** [s.lstrip()] *)
Fixpoint lstrip (s : string) : string :=
  match s with
  | EmptyString => EmptyString
  | String c s1 =>
      if is_space c then lstrip s1
      else match s1 with
           | String d s2 =>
               if is_space2 c d then lstrip s2
               else match s2 with
                    | String e s3 => if is_space3 c d e then lstrip s3 else s
                    | EmptyString => s
                    end
           | EmptyString => s
           end
  end.

(** [s] holds white space only (or nothing). *)
Definition blank (s : string) : bool := negb (truthy (lstrip s)).

(** [s.rstrip()]: going backwards, what is blank up to the end is dropped. *)
Fixpoint rstrip (s : string) : string :=
  match s with
  | EmptyString => EmptyString
  | String c s' =>
      let r := rstrip s' in
      if blank (String c r) then EmptyString else String c r
  end.

(** [s.strip()] *)
Definition strip (s : string) : string := rstrip (lstrip s).

(** [s.split(sep)] for a one-character separator: never the empty list. *)
Fixpoint split (sep : ascii) (s : string) : list string :=
  match s with
  | EmptyString => [EmptyString]
  | String c s' =>
      if Ascii.eqb c sep then EmptyString :: split sep s'
      else match split sep s' with
           | h :: t => String c h :: t
           | [] => [String c EmptyString]
           end
  end.

(** [sep.join(l)] *)
Definition join (sep : string) (l : list string) : string :=
  String.concat sep l.

(** [len(s)]: the characters of [s], one per byte that does not continue
    an encoded character. *)
Fixpoint len (s : string) : nat :=
  match s with
  | EmptyString => O
  | String c s' =>
      if ((128 <=? N_of_ascii c)%N && (N_of_ascii c <? 192)%N)
      then len s' else S (len s')
  end.

(** [x or d] where [x] is [None] or a [str]. *)
Definition or_else (x : option string) (d : string) : string :=
  match x with
  | Some s => if truthy s then s else d
  | None => d
  end.

(** [str(n)] for an [int]. *)
Definition str (n : Z) : string := pretty n.

End Py.

(** [t] has [s] as a substring. *)
Definition Contains (s t : string) : Prop :=
  exists pre post, t = pre +:+ s +:+ post.

(** ** models.py *)

(** One day, in microseconds: [timedelta(days=1)]. *)
Definition day : Z := 86400000000.

(** [(now - last).days]: a [timedelta] is normalised with
    [0 <= seconds < 86400], so [days] is the floor of the quotient. *)
Definition timedelta_days (now last : Z) : Z := Z.div (now - last) day.

Module User.

Record t := mk {
  id : Z;
  username : string;
  email : string;
  password : string;
  first_name : string;
  last_name : string;
  plan : string;
  tokens : Z;
  last_token_reset : option Z;
  last_generated : option Z
}.

Definition set_tokens (n : Z) (u : t) : t :=
  mk (id u) (username u) (email u) (password u) (first_name u) (last_name u)
     (plan u) n (last_token_reset u) (last_generated u).

Definition set_plan (p : string) (u : t) : t :=
  mk (id u) (username u) (email u) (password u) (first_name u) (last_name u)
     p (tokens u) (last_token_reset u) (last_generated u).

Definition set_last_token_reset (d : option Z) (u : t) : t :=
  mk (id u) (username u) (email u) (password u) (first_name u) (last_name u)
     (plan u) (tokens u) d (last_generated u).

Definition set_last_generated (d : option Z) (u : t) : t :=
  mk (id u) (username u) (email u) (password u) (first_name u) (last_name u)
     (plan u) (tokens u) (last_token_reset u) d.

Definition is_free_user (u : t) : bool := bool_decide (plan u = "free").
Definition is_pro_user (u : t) : bool := bool_decide (plan u = "pro").
Definition is_ultimate_user (u : t) : bool := bool_decide (plan u = "ultimate").

(** [self.tokens > 0 or self.is_ultimate_user()] *)
Definition has_tokens (u : t) : bool :=
  (0 <? tokens u) || is_ultimate_user u.

(** [if not self.is_ultimate_user(): self.tokens = max(0, self.tokens - 1)] *)
Definition deduct_token (u : t) : t :=
  if negb (is_ultimate_user u) then set_tokens (Z.max 0 (tokens u - 1)) u
  else u.

(** The test of [reset_tokens_if_needed]:
    [not self.last_token_reset or (now - self.last_token_reset).days >= 1]. *)
Definition reset_due (u : t) (now : Z) : bool :=
  match last_token_reset u with
  | None => true
  | Some last => 1 <=? timedelta_days now last
  end.

(** [reset_tokens_if_needed], with the reading of [datetime.utcnow()] as
    the argument [now]. *)
Definition reset_tokens_if_needed (u : t) (now : Z) : t :=
  if reset_due u now then
    let u1 :=
      if is_free_user u then set_tokens 3 u
      else if is_pro_user u then set_tokens 15 u
      else u in
    set_last_token_reset (Some now) u1
  else u.

End User.

Module Resume.

Record t := mk {
  id : Z;
  user_id : Z;
  name : string;
  profession : string;
  email : string;
  phone : string;
  linkedin : string;
  bio : string;
  skills : string;
  job_title : string;
  company : string;
  job_desc : string;
  degree : string;
  institute : string;
  grad_year : string;
  profile_pic_url : option string;
  template : string;
  timestamp : Z
}.

End Resume.

Module Purchase.

Record t := mk {
  id : Z;
  user_id : Z;
  amount : Z;
  description : string;
  timestamp : Z
}.

End Purchase.

(** ** The database and the request/response boundary *)

Record DB := mkDB {
  users : gmap Z User.t;
  resumes : gmap Z Resume.t;
  purchases : gmap Z Purchase.t
}.

(** The key of the next inserted row: one more than the largest key in use
    (an integer primary key without explicit value). *)
Definition next_id {A} (m : gmap Z A) : Z :=
  1 + map_fold (fun k _ acc => Z.max k acc) 0 m.

(** [db.session.commit()] with the current user's row modified. *)
Definition save_user (u : User.t) (st : DB) : DB :=
  mkDB (<[User.id u := u]> (users st)) (resumes st) (purchases st).

(** [db.session.add(resume)] *)
Definition add_resume (r : Resume.t) (st : DB) : DB :=
  mkDB (users st) (<[Resume.id r := r]> (resumes st)) (purchases st).

(** [db.session.add(purchase)] *)
Definition add_purchase (p : Purchase.t) (st : DB) : DB :=
  mkDB (users st) (resumes st) (<[Purchase.id p := p]> (purchases st)).

Inductive Body :=
| Redirect (endpoint : string)
| Render (template : string)
| Abort (code : Z).

(** A response: the message given to [flash] (text, category), if any, and
    what the route returns. *)
Record Response := mkResponse {
  flashed : option (string * string);
  body : Body
}.

Definition flash (message category : string) (b : Body) : Response :=
  mkResponse (Some (message, category)) b.

(** What [@login_required] answers when no user is loaded for the session. *)
Definition login_redirect : Response :=
  flash "Please log in to access this page." "message" (Redirect "login").

(** [request.form]: field/value pairs in the order they were sent. *)
Definition Form := list (string * string).

(** [form[key]]; [None] stands for the [KeyError], answered with 400. *)
Fixpoint form_item (form : Form) (key : string) : option string :=
  match form with
  | [] => None
  | (k, v) :: rest => if String.eqb k key then Some v else form_item rest key
  end.

(** [form.get(key, d)] *)
Definition form_get (form : Form) (key d : string) : string :=
  default d (form_item form key).

(** ** The AI utility *)

(** Outcome of [requests.post]: the call raises (no connection, timeout), or
    a response arrives with a status code; [content] is
    [res.json()["choices"][0]["message"]["content"]] when the body has that
    shape and [None] when reading it raises. *)
Inductive http_result :=
| Raised
| Replied (status_code : Z) (content : option string).

(** The external completion service: prompt and system prompt to outcome. *)
Definition Service := string -> string -> http_result.

Definition get_ai_response (post : Service) (prompt system_prompt : string)
  : option string :=
  match post prompt system_prompt with
  | Raised => None
  | Replied status_code content =>
      if status_code =? 200 then
        match content with
        | Some s => Some (Py.strip s)
        | None => None
        end
      else None
  end.

Definition bio_prompt (name profession skills : string) : string :=
  "Write a first-person 2–3 sentence summary for a resume. " +:+
  "The person is named " +:+ name +:+ ", a " +:+ profession +:+
  ", skilled in " +:+ skills +:+ ". " +:+
  "The tone should be confident, creative, and slightly poetic—like a personal brand pitch. " +:+
  "Begin with 'I am' or 'I'm'. Mention how their skills come together to create functional and meaningful work.".

Definition bio_system : string :=
  "You are a professional copywriter for personal branding. Avoid generic fluff. Keep it human and inspired.".

(** The templated sentence of [generate_bio]. *)
Definition fallback_bio (name profession skills : string) : string :=
  "I'm " +:+ name +:+ ", a " +:+ profession +:+ " skilled in " +:+ skills +:+
  ", blending creativity and logic to craft meaningful work.".

Definition generate_bio (post : Service) (name profession skills : string)
  : string :=
  Py.or_else (get_ai_response post (bio_prompt name profession skills) bio_system)
             (fallback_bio name profession skills).

(** ** app.py: the routes *)

Section Routes.

(** [FREE_TEMPLATES] is imported from [config], whose text is not part of the
    sources at hand; [secure_filename] and [generate_password_hash] are
    werkzeug's and [lower] is [str.lower]. All four are left abstract. *)
Variable FREE_TEMPLATES : list string.
Variable secure_filename : string -> string.
Variable generate_password_hash : string -> string.
Variable lower : string -> string.

(** What the routes meet on disk: whether [pic.save(filepath)] returns
    rather than raises, and whether [render_template] finds the page it is
    asked for. *)
Variable save_upload : string -> bool.
Variable template_exists : string -> bool.

(** [[s.strip() for s in raw.split(',') if s.strip()]] *)
Definition parse_skills (raw : string) : list string :=
  map Py.strip (List.filter (fun s => Py.truthy (Py.strip s)) (Py.split "," raw)).

(** Step 4 of [generate]; [profile_pic] is the file name of the upload when
    the request carries one. *)
Definition upload_url (profile_pic : option string) : option string :=
  match profile_pic with
  | Some filename =>
      if Py.truthy filename
      then Some ("/static/uploads/" +:+ secure_filename filename)
      else None
  | None => None
  end.

(** [os.path.join(app.config['UPLOAD_FOLDER'], filename)] *)
Definition upload_path (filename : string) : string :=
  match filename with
  | String "/" _ => filename
  | _ => "static/uploads/" +:+ filename
  end.

(** Whether step 4 of [generate] gets past [pic.save]. With an empty
    [secure_filename] the path is the upload folder itself, which cannot be
    opened for writing. *)
Definition upload_saved (profile_pic : option string) : bool :=
  match profile_pic with
  | Some filename =>
      if Py.truthy filename
      then Py.truthy (secure_filename filename) &&
           save_upload (upload_path (secure_filename filename))
      else true
  | None => true
  end.

(** Steps 5 and 6 of [generate] up to [db.session.add]: the row to insert, or
    [None] when [form['name']] or [form['profession']] raises. *)
Definition build_resume (st : DB) (current_user : User.t) (form : Form)
    (profile_pic : option string) (post : Service) (now : Z)
  : option Resume.t :=
  let pic_url := upload_url profile_pic in
  let skills := parse_skills (form_get form "skills" "") in
  bio ← (let given := Py.strip (form_get form "bio" "") in
         if Py.truthy given then Some given
         else name ← form_item form "name";
              profession ← form_item form "profession";
              Some (generate_bio post name profession (Py.join ", " skills)));
  name ← form_item form "name";
  profession ← form_item form "profession";
  Some (Resume.mk (next_id (resumes st)) (User.id current_user)
          name profession
          (form_get form "email" "") (form_get form "phone" "")
          (form_get form "linkedin" "")
          bio (Py.join "," skills)
          (form_get form "job_title" "") (form_get form "company" "")
          (form_get form "job_desc" "")
          (form_get form "degree" "") (form_get form "institute" "")
          (form_get form "grad_year" "")
          pic_url (form_get form "template" "classic") now).

(** [generate]; the three clock readings are those of
    [reset_tokens_if_needed], of the [last_generated] stamp and of the
    inserted row's default [timestamp]. When [pic.save] raises, the request
    ends in a 500 with only the reset committed. When [render_template]
    raises, row and balance are committed and the success message is flashed
    already, and the answer is a 500. *)
Definition generate (st : DB) (uid : Z) (form : Form)
    (profile_pic : option string) (post : Service)
    (now_reset now_generated now_insert : Z) : DB * Response :=
  match users st !! uid with
  | None => (st, login_redirect)
  | Some current_user =>
      let current_user := User.reset_tokens_if_needed current_user now_reset in
      let st := save_user current_user st in
      let template := form_get form "template" "classic" in
      let is_premium := negb (bool_decide (template ∈ FREE_TEMPLATES)) in
      if is_premium &&
         negb (User.is_pro_user current_user || User.is_ultimate_user current_user)
      then (st, flash "This template is only available for Pro or Ultimate users."
                      "error" (Redirect "pricing"))
      else if negb (User.has_tokens current_user)
      then (st, flash "You're out of tokens. Please buy more or wait for your daily reset."
                      "error" (Redirect "pricing"))
      else if negb (upload_saved profile_pic)
      then (st, mkResponse None (Abort 500))
      else
        match build_resume st current_user form profile_pic post now_insert with
        | None => (st, mkResponse None (Abort 400))
        | Some resume =>
            let st := add_resume resume st in
            let current_user :=
              User.set_last_generated (Some now_generated)
                (User.deduct_token current_user) in
            (save_user current_user st,
             flash "Resume generated successfully!" "success"
                   (if template_exists ("resume_" +:+ template +:+ ".html")
                    then Render ("resume_" +:+ template +:+ ".html")
                    else Abort 500))
        end
  end.

(** [delete_resume] *)
Definition delete_resume (st : DB) (uid resume_id : Z) : DB * Response :=
  match users st !! uid with
  | None => (st, login_redirect)
  | Some current_user =>
      match resumes st !! resume_id with
      | None => (st, mkResponse None (Abort 404))
      | Some resume =>
          if negb (Resume.user_id resume =? User.id current_user)
          then (st, flash "Unauthorized" "error" (Redirect "start"))
          else (mkDB (users st) (delete resume_id (resumes st)) (purchases st),
                flash "Resume deleted successfully!" "success"
                      (Redirect "my_resumes"))
      end
  end.

Definition price_map : gmap Z Z := {[ 1 := 50; 5 := 100 ]}.

(** [buy_token]; [now] is the default [timestamp] of the ledger row. *)
Definition buy_token (st : DB) (uid count now : Z) : DB * Response :=
  match users st !! uid with
  | None => (st, login_redirect)
  | Some current_user =>
      let amount := default 0 (price_map !! count) in
      if amount =? 0
      then (st, flash "Invalid token pack selected." "error" (Redirect "pricing"))
      else
        let current_user :=
          User.set_tokens (User.tokens current_user + count) current_user in
        let purchase :=
          Purchase.mk (next_id (purchases st)) (User.id current_user) amount
                      (Py.str count +:+ " Token Pack") now in
        (save_user current_user (add_purchase purchase st),
         flash (Py.str count +:+ " token" +:+ (if 1 <? count then "s" else "")
                +:+ " purchased successfully.")
               "success" (Redirect "pricing"))
  end.

(** [upgrade] *)
Definition upgrade (st : DB) (uid : Z) (plan : string) (now : Z)
  : DB * Response :=
  match users st !! uid with
  | None => (st, login_redirect)
  | Some current_user =>
      if bool_decide (plan = "pro") then
        let current_user :=
          User.set_plan "pro"
            (User.set_tokens (User.tokens current_user + 15) current_user) in
        let purchase :=
          Purchase.mk (next_id (purchases st)) (User.id current_user) 199
                      "Pro Pack" now in
        (save_user current_user (add_purchase purchase st),
         flash "Upgraded to Pro Pack. 15 tokens added + Premium templates unlocked."
               "success" (Redirect "my_resumes"))
      else if bool_decide (plan = "ultimate") then
        let current_user :=
          User.set_plan "ultimate" (User.set_tokens 9999 current_user) in
        let purchase :=
          Purchase.mk (next_id (purchases st)) (User.id current_user) 499
                      "Ultimate Pack" now in
        (save_user current_user (add_purchase purchase st),
         flash "Welcome to Ultimate Pack. Unlimited tokens + all templates unlocked."
               "success" (Redirect "my_resumes"))
      else (st, flash "Invalid upgrade option." "error" (Redirect "pricing"))
  end.

(** The row built by [register]; [last_token_reset] takes its column default
    (the time of the insert) and [last_generated] stays empty. *)
Definition new_user (st : DB) (first_name last_name email password : string)
    (now : Z) : User.t :=
  User.mk (next_id (users st))
          (lower first_name +:+ "." +:+ lower last_name)
          email (generate_password_hash password) first_name last_name
          "free" 3 (Some now) None.

(** [register]; [valid] is the verdict of [form.validate_on_submit()]. A
    [username] already in the table breaks its unique constraint at commit,
    which the route does not handle. *)
Definition register (st : DB) (valid : bool)
    (first_name last_name email password : string) (now : Z)
  : DB * Response :=
  if valid then
    if bool_decide (map_Exists (fun _ u => User.email u = email) (users st))
    then (st, flash "Email already registered." "error" (Redirect "register"))
    else
      let u := new_user st first_name last_name email password now in
      if bool_decide
           (map_Exists (fun _ v => User.username v = User.username u) (users st))
      then (st, mkResponse None (Abort 500))
      else (save_user u st,
            flash "Account created successfully!" "success" (Redirect "index"))
  else (st, mkResponse None (Render "register.html")).

End Routes.

(** ** app.py: reading, editing and listing stored resumes *)

(** [Resume.query.filter_by(id=resume_id, user_id=current_user.id).first()] *)
Definition owned_resume (st : DB) (current_user : User.t) (resume_id : Z)
  : option Resume.t :=
  match resumes st !! resume_id with
  | Some resume =>
      if Resume.user_id resume =? User.id current_user then Some resume else None
  | None => None
  end.

(** The ['skills'] entry of the context built by [view_resume] and
    [download_resume]: [[s.strip() for s in resume.skills.split(',')]]. *)
Definition context_skills (resume : Resume.t) : list string :=
  map Py.strip (Py.split "," (Resume.skills resume)).

(** [view_resume]; [template_exists] tells whether [render_template] finds
    the page, and a page that is missing ends the request in a 500. *)
Definition view_resume (template_exists : string -> bool) (st : DB)
    (uid resume_id : Z) : Response :=
  match users st !! uid with
  | None => login_redirect
  | Some current_user =>
      match owned_resume st current_user resume_id with
      | None => mkResponse None (Abort 404)
      | Some resume =>
          if template_exists ("resume_" +:+ Resume.template resume +:+ ".html")
          then mkResponse None
                 (Render ("resume_" +:+ Resume.template resume +:+ ".html"))
          else mkResponse None (Abort 500)
      end
  end.

(** [Resume.timestamp.desc()]: [r1] may come before [r2]. *)
Definition newer_first (r1 r2 : Resume.t) : Prop :=
  Resume.timestamp r2 <= Resume.timestamp r1.

#[global] Instance newer_first_dec : RelDecision newer_first.
Proof. intros r1 r2. unfold newer_first. apply _. Defined.

(** The rows [my_resumes] hands to its template:
    [filter_by(user_id=current_user.id).order_by(Resume.timestamp.desc()).all()].
    The order among rows of equal timestamp is the database's choice; here it
    is the one of a merge sort. *)
Definition my_resumes_rows (st : DB) (current_user : User.t) : list Resume.t :=
  merge_sort newer_first
    (List.filter (fun r => Resume.user_id r =? User.id current_user)
                 (map snd (map_to_list (resumes st)))).

(** [my_resumes] *)
Definition my_resumes (st : DB) (uid : Z) : Response * list Resume.t :=
  match users st !! uid with
  | None => (login_redirect, [])
  | Some current_user =>
      (mkResponse None (Render "my_resumes.html"), my_resumes_rows st current_user)
  end.

Inductive Method := GET | POST.

Section Editing.

Variable secure_filename : string -> string.
Variable save_upload : string -> bool.

(** The copy made by [edit_resume] under [?duplicate=1]. *)
Definition duplicate_of (st : DB) (current_user : User.t) (original : Resume.t)
    (now : Z) : Resume.t :=
  Resume.mk (next_id (resumes st)) (User.id current_user)
            (Resume.name original) (Resume.profession original)
            (Resume.email original) (Resume.phone original)
            (Resume.linkedin original) (Resume.bio original)
            (Resume.skills original) (Resume.job_title original)
            (Resume.company original) (Resume.job_desc original)
            (Resume.degree original) (Resume.institute original)
            (Resume.grad_year original) (Resume.profile_pic_url original)
            (Resume.template original) now.

(** The assignments of the POST branch of [edit_resume]; [None] when
    [form['name']] or [form['profession']] raises. *)
Definition edited (original : Resume.t) (form : Form)
    (profile_pic : option string) : option Resume.t :=
  name ← form_item form "name";
  profession ← form_item form "profession";
  Some (Resume.mk (Resume.id original) (Resume.user_id original)
          name profession
          (form_get form "email" "") (form_get form "phone" "")
          (form_get form "linkedin" "") (form_get form "bio" "")
          (form_get form "skills" "")
          (form_get form "job_title" "") (form_get form "company" "")
          (form_get form "job_desc" "")
          (form_get form "degree" "") (form_get form "institute" "")
          (form_get form "grad_year" "")
          (match upload_url secure_filename profile_pic with
           | Some url => Some url
           | None => Resume.profile_pic_url original
           end)
          (form_get form "template" "classic")
          (Resume.timestamp original)).

(** [edit_resume]; [duplicate] is [request.args.get('duplicate') == '1'] and
    [now] the default [timestamp] of a copy. The changed row is written back
    under its primary key [resume_id]; a request that raises, at a missing
    form field or in [pic.save], commits nothing. *)
Definition edit_resume (st : DB) (uid resume_id : Z) (method : Method)
    (duplicate : bool) (form : Form) (profile_pic : option string) (now : Z)
  : DB * Response :=
  match users st !! uid with
  | None => (st, login_redirect)
  | Some current_user =>
      match owned_resume st current_user resume_id with
      | None => (st, mkResponse None (Abort 404))
      | Some original =>
          if duplicate then
            (add_resume (duplicate_of st current_user original now) st,
             flash "Resume duplicated. You can now edit it." "info"
                   (Redirect "edit_resume"))
          else
            match method with
            | POST =>
                match edited original form profile_pic with
                | None => (st, mkResponse None (Abort 400))
                | Some resume =>
                    if negb (upload_saved secure_filename save_upload profile_pic)
                    then (st, mkResponse None (Abort 500))
                    else
                      (mkDB (users st) (<[resume_id := resume]> (resumes st))
                            (purchases st),
                       flash "Resume updated successfully!" "success"
                             (Redirect "my_resumes"))
                end
            | GET => (st, mkResponse None (Render "edit_resume.html"))
            end
      end
  end.

End Editing.

Section Download.

(** [render_template] on the context [download_resume] builds from a row,
    and whether it finds the page at all. *)
Variable render_template : string -> Resume.t -> string.
Variable template_exists : string -> bool.

(** [os.path.join(f"temp_resume_{resume_id}", "resume.html")] *)
Definition download_path (resume_id : Z) : string :=
  "temp_resume_" +:+ Py.str resume_id +:+ "/resume.html".

(** [download_resume]: the files on disk (path to content) after the request,
    and either a response or the text of the 200 answer. The page is rendered
    before anything is written, so a missing page ends in a 500 with the
    files as they were. *)
Definition download_resume (fs : gmap string string) (st : DB)
    (uid resume_id : Z) : gmap string string * (Response + string) :=
  match users st !! uid with
  | None => (fs, inl login_redirect)
  | Some current_user =>
      match resumes st !! resume_id with
      | None => (fs, inl (mkResponse None (Abort 404)))
      | Some resume =>
          if negb (Resume.user_id resume =? User.id current_user)
          then (fs, inl (flash "Access denied." "error" (Redirect "my_resumes")))
          else if negb (template_exists
                          ("resume_" +:+ Resume.template resume +:+ ".html"))
          then (fs, inl (mkResponse None (Abort 500)))
          else
            let html :=
              render_template ("resume_" +:+ Resume.template resume +:+ ".html")
                              resume in
            (<[download_path resume_id := html]> fs, inr "Resume HTML saved.")
      end
  end.

End Download.

(** ** app.py: login *)

Section Login.

Variable check_password_hash : string -> string -> bool.

(** [User.query.filter_by(email=email).first()]; [email] is a unique column,
    so at most one row qualifies in a table the database accepted. *)
Definition user_by_email (st : DB) (email : string) : option User.t :=
  head (List.filter (fun u => bool_decide (User.email u = email))
                    (map snd (map_to_list (users st)))).

(** [login]: the id [login_user] puts in the session, if any, and the
    response; [valid] is the verdict of [form.validate_on_submit()]. *)
Definition login (st : DB) (valid : bool) (email password : string)
  : option Z * Response :=
  if valid then
    match user_by_email st email with
    | Some user =>
        if check_password_hash (User.password user) password
        then (Some (User.id user),
              flash "Logged in successfully." "success" (Redirect "index"))
        else (None, flash "Invalid email or password." "danger"
                          (Render "login.html"))
    | None => (None, flash "Invalid email or password." "danger"
                           (Render "login.html"))
    end
  else (None, mkResponse None (Render "login.html")).

End Login.

(** ** forms.py *)

(** wtforms' [DataRequired] on the text of a field: the data is truthy and
    not only whitespace. *)
Definition data_required (data : string) : bool :=
  Py.truthy data && Py.truthy (Py.strip data).

(** wtforms' [Length(min, max)] on [len(field.data)], where [-1] stands for
    no bound. *)
Definition length_between (min max : Z) (data : string) : bool :=
  let n := Z.of_nat (Py.len data) in
  (min <=? n) && ((max =? -1) || (n <=? max)).

Module RegisterForm.

Record t := mk {
  first_name : string;
  last_name : string;
  email : string;
  password : string;
  confirm_password : string
}.

Section Validators.

(** wtforms' [Email] validator and the match of
    [Regexp(r'^[\w\.-]+@[\w\.-]+\.\w+$')], both left abstract. *)
Variable email_valid : string -> bool.
Variable email_format : string -> bool.

(** The validators of the five fields; the form is valid when none fails. *)
Definition validate (f : t) : bool :=
  (data_required (first_name f) && length_between 2 30 (first_name f)) &&
  (data_required (last_name f) && length_between 2 30 (last_name f)) &&
  (data_required (email f) && email_valid (email f) && email_format (email f)) &&
  (data_required (password f) && length_between 6 (-1) (password f)) &&
  (data_required (confirm_password f) &&
   bool_decide (confirm_password f = password f)).

(** [form.validate_on_submit()]: the request submits the form, its CSRF
    token is accepted, and the fields validate. *)
Definition validate_on_submit (is_submitted csrf_ok : bool) (f : t) : bool :=
  is_submitted && csrf_ok && validate f.

End Validators.

End RegisterForm.

(** [register] on the form it builds from the request. *)
Definition register_form (email_valid email_format : string -> bool)
    (generate_password_hash lower : string -> string) (st : DB)
    (is_submitted csrf_ok : bool) (f : RegisterForm.t) (now : Z)
  : DB * Response :=
  register generate_password_hash lower st
    (RegisterForm.validate_on_submit email_valid email_format
       is_submitted csrf_ok f)
    (RegisterForm.first_name f) (RegisterForm.last_name f)
    (RegisterForm.email f) (RegisterForm.password f) now.

(** ** Integrity of the tables *)

(** Every account is stored under its own [id], and [email] and [username]
    identify a row: the primary key and the two unique columns of [User]. *)
Definition users_ok (st : DB) : Prop :=
  (forall k u, users st !! k = Some u -> User.id u = k) /\
  (forall k1 k2 u1 u2, users st !! k1 = Some u1 -> users st !! k2 = Some u2 ->
     User.email u1 = User.email u2 -> k1 = k2) /\
  (forall k1 k2 u1 u2, users st !! k1 = Some u1 -> users st !! k2 = Some u2 ->
     User.username u1 = User.username u2 -> k1 = k2).

(** Rows once present stay as they are: [m'] extends [m]. *)
Definition keeps {A} (m m' : gmap Z A) : Prop :=
  forall k x, m !! k = Some x -> m' !! k = Some x.

(** ** Texts that stripping leaves alone *)

(** A byte that belongs to no white space character. *)
Definition plain_byte (k : ascii) : Prop :=
  Py.is_space k = false /\
  (forall d, Py.is_space2 k d = false) /\ (forall c, Py.is_space2 c k = false) /\
  (forall d e, Py.is_space3 k d e = false) /\
  (forall c e, Py.is_space3 c k e = false) /\
  (forall c d, Py.is_space3 c d k = false).

(** [y] is left whole by [rstrip], whatever is put before it. *)
Definition kept_tail (y : string) : Prop :=
  Py.rstrip y = y /\ forall w, Py.blank (w +:+ y) = false.

(** ** Invariant and iteration *)

(** No account of the table has a negative balance. *)
Definition tokens_nonneg (st : DB) : Prop :=
  map_Forall (fun _ u => 0 <= User.tokens u) (users st).

(** The pro upgrade requested once per clock reading of [nows], in order. *)
Definition upgrade_pro_each (st : DB) (uid : Z) (nows : list Z) : DB :=
  fold_left (fun st now => (upgrade st uid "pro" now).1) nows st.

(** ** Sample rows *)

(** A lowering of the ASCII letters, standing in for [str.lower] in the
    examples. *)
Definition ascii_lower_char (c : ascii) : ascii :=
  let n := nat_of_ascii c in
  if (65 <=? n)%nat && (n <=? 90)%nat then ascii_of_nat (n + 32) else c.

Fixpoint ascii_lower (s : string) : string :=
  match s with
  | EmptyString => EmptyString
  | String c s' => String (ascii_lower_char c) (ascii_lower s')
  end.

(** A free account as [register] leaves it, last reset at time 0. *)
Definition alice : User.t :=
  User.mk 1 "alice.doe" "alice@example.org" "pbkdf2:sha256" "Alice" "Doe"
          "free" 3 (Some 0) None.

(** A row whose [last_token_reset] column is NULL, with no token left. *)
Definition unstamped : User.t :=
  User.set_last_token_reset None (User.set_tokens 0 alice).

(** An ultimate account with a zero balance. *)
Definition vip : User.t :=
  User.set_plan "ultimate" (User.set_tokens 0 alice).

(** A resume saved by account 2. *)
Definition bobs_resume : Resume.t :=
  Resume.mk 1 2 "Bob Roe" "Architect" "bob@example.org" "" "" "I'm Bob." "CAD"
            "" "" "" "" "" "" None "classic" 5.

(** Alice's account next to a resume that belongs to account 2. *)
Definition shared_db : DB := mkDB {[1 := alice]} {[1 := bobs_resume]} ∅.

(** A generation request without a bio, and a service that answers it. *)
Definition alice_form : Form :=
  [("name", "Alice"); ("profession", "designer"); ("skills", "Rocq, Python")].

Definition terse_service : Service := fun _ _ => Replied 200 (Some " Hi. ").

Definition alice_db : DB := mkDB {[1 := alice]} ∅ ∅.

(** A resume saved by Alice, in a database where she has no token left. *)
Definition alices_resume : Resume.t :=
  Resume.mk 4 1 "Alice Doe" "designer" "alice@example.org" "" "" "I'm Alice."
            "Rocq,Python" "" "" "" "" "" "" None "classic" 6.

Definition spent_db : DB :=
  mkDB {[1 := User.set_tokens 0 alice]} {[4 := alices_resume]} ∅.

(** A later resume of Alice, and a database that holds both of hers next to
    Bob's. *)
Definition alices_later_resume : Resume.t :=
  Resume.mk 5 1 "Alice Doe" "lead designer" "alice@example.org" "" ""
            "I'm Alice." "Rocq,Python" "" "" "" "" "" "" None "modern" 8.

Definition portfolio_db : DB :=
  mkDB {[1 := alice]}
       {[1 := bobs_resume; 4 := alices_resume; 5 := alices_later_resume]} ∅.

(** * Properties *)

(** ** Strings *)

Example split_skills : Py.split "," "a, b,,c " = ["a"; " b"; ""; "c "].
Proof. reflexivity. Qed.

Example strip_both_ends : Py.strip "  a b  " = "a b".
Proof. reflexivity. Qed.

Example str_of_pack : Py.str 5 = "5".
Proof. vm_compute. reflexivity. Qed.

Lemma append_length (s t : string) :
  String.length (s +:+ t) = (String.length s + String.length t)%nat.
Proof.
  induction s as [|c s IH]; [reflexivity |].
  change (S (String.length (s +:+ t)) = S (String.length s + String.length t)).
  now rewrite IH.
Qed.

Lemma append_assoc (s t r : string) : (s +:+ t) +:+ r = s +:+ t +:+ r.
Proof.
  induction s as [|c s IH]; [reflexivity |].
  change (String c ((s +:+ t) +:+ r) = String c (s +:+ t +:+ r)).
  now rewrite IH.
Qed.

Lemma Contains_intro (pre s post : string) : Contains s (pre +:+ s +:+ post).
Proof. now exists pre, post. Qed.

Lemma Contains_length (s t : string) :
  Contains s t -> (String.length s <= String.length t)%nat.
Proof. intros (pre & post & ->). rewrite !append_length. lia. Qed.

Lemma fallback_bio_contains_name (name profession skills : string) :
  Contains name (fallback_bio name profession skills).
Proof. unfold fallback_bio. apply (Contains_intro "I'm "). Qed.

Lemma fallback_bio_contains_profession (name profession skills : string) :
  Contains profession (fallback_bio name profession skills).
Proof.
  unfold fallback_bio.
  rewrite <- (append_assoc name), <- (append_assoc "I'm ").
  apply Contains_intro.
Qed.

Lemma fallback_bio_contains_skills (name profession skills : string) :
  Contains skills (fallback_bio name profession skills).
Proof.
  unfold fallback_bio.
  rewrite <- (append_assoc profession), <- (append_assoc ", a "),
    <- (append_assoc name), <- (append_assoc "I'm ").
  apply Contains_intro.
Qed.

(** ** Primary keys *)

Lemma next_id_above {A} (m : gmap Z A) (k : Z) (x : A) :
  m !! k = Some x -> k < next_id m.
Proof.
  unfold next_id. revert k x.
  apply (map_fold_weak_ind
           (fun r m => forall k x, m !! k = Some x -> k < 1 + r)).
  - intros k x H. now rewrite lookup_empty in H.
  - intros i y m' r _ IH k x H.
    apply lookup_insert_Some in H as [[<- _] | [_ H]]; [lia |].
    specialize (IH k x H). lia.
Qed.

Lemma next_id_fresh {A} (m : gmap Z A) : m !! next_id m = None.
Proof.
  destruct (m !! next_id m) as [x|] eqn:E; [| reflexivity].
  apply next_id_above in E. lia.
Qed.

(** ** Quota policy ([models.py]) *)

Lemma is_ultimate_user_true (u : User.t) :
  User.is_ultimate_user u = true <-> User.plan u = "ultimate".
Proof. unfold User.is_ultimate_user. apply bool_decide_eq_true. Qed.

Lemma is_ultimate_user_false (u : User.t) :
  User.is_ultimate_user u = false <-> User.plan u <> "ultimate".
Proof. unfold User.is_ultimate_user. apply bool_decide_eq_false. Qed.

(** [(now - last).days >= 1] says that at least one day has elapsed. *)
Lemma timedelta_days_ge_1 (now last : Z) :
  (1 <=? timedelta_days now last) = true <-> day <= now - last.
Proof.
  unfold timedelta_days, day. rewrite Z.leb_le. split; intros H.
  - pose proof (Z.mul_div_le (now - last) 86400000000 eq_refl). lia.
  - apply Z.div_le_lower_bound; lia.
Qed.

Lemma timedelta_days_lt_1 (now last : Z) :
  (1 <=? timedelta_days now last) = false <-> now - last < day.
Proof.
  rewrite <- Bool.not_true_iff_false, timedelta_days_ge_1. lia.
Qed.

Lemma reset_due_true (u : User.t) (now : Z) :
  User.reset_due u now = true <->
  User.last_token_reset u = None \/
  exists last, User.last_token_reset u = Some last /\ day <= now - last.
Proof.
  unfold User.reset_due. destruct (User.last_token_reset u) as [last|].
  - rewrite timedelta_days_ge_1. split.
    + intros H. right. now exists last.
    + intros [H | (l & [= <-] & H)]; [discriminate | exact H].
  - split; [now left | reflexivity].
Qed.

Lemma reset_due_false (u : User.t) (now : Z) :
  User.reset_due u now = false <->
  exists last, User.last_token_reset u = Some last /\ now - last < day.
Proof.
  unfold User.reset_due. destruct (User.last_token_reset u) as [last|].
  - rewrite timedelta_days_lt_1. split.
    + intros H. now exists last.
    + now intros (l & [= <-] & H).
  - split; [discriminate | now intros (l & [=] & _)].
Qed.

(** What a reset that fires writes. *)
Lemma reset_when_due (u : User.t) (now : Z) :
  User.reset_due u now = true ->
  let u' := User.reset_tokens_if_needed u now in
  u' = User.set_last_token_reset (Some now) (User.set_tokens (User.tokens u') u) /\
  (User.plan u = "free" -> User.tokens u' = 3) /\
  (User.plan u = "pro" -> User.tokens u' = 15) /\
  (User.plan u <> "free" -> User.plan u <> "pro" -> User.tokens u' = User.tokens u).
Proof.
  intros Hdue. unfold User.reset_tokens_if_needed. rewrite Hdue.
  unfold User.is_free_user, User.is_pro_user.
  destruct u as [i un em pw fn ln pl tk ltr lg]; simpl in *.
  repeat case_bool_decide; simpl; subst;
    repeat split; intros; try reflexivity; congruence.
Qed.

Lemma reset_stamp (u : User.t) (now : Z) :
  exists t, User.last_token_reset (User.reset_tokens_if_needed u now) = Some t.
Proof.
  unfold User.reset_tokens_if_needed.
  destruct (User.reset_due u now) eqn:Hdue.
  - exists now. now repeat case_match.
  - apply reset_due_false in Hdue as (last & H & _). now exists last.
Qed.

Lemma reset_tokens_nonneg (u : User.t) (now : Z) :
  0 <= User.tokens u -> 0 <= User.tokens (User.reset_tokens_if_needed u now).
Proof.
  intros H. unfold User.reset_tokens_if_needed.
  repeat case_match; simpl; lia.
Qed.

Lemma deduct_token_nonneg (u : User.t) :
  0 <= User.tokens u -> 0 <= User.tokens (User.deduct_token u).
Proof.
  intros H. unfold User.deduct_token. case_match; simpl; lia.
Qed.

(** C3 (as amended): a reset fires exactly when the account carries no
    [last_token_reset] or at least one day has elapsed since it; it then
    stamps [last_token_reset = now] and sets the tokens to 3 on the free plan
    and to 15 on the pro plan, leaving them as they are on the ultimate plan,
    and touches no other field. In every other case the account is unchanged.
    After any call the account carries a stamp [t]; a further call less than
    a day after [t] is a no-op, and one a day or more after [t] fires again. *)
Theorem reset_tokens_if_needed_spec (u : User.t) (now : Z) :
  let u' := User.reset_tokens_if_needed u now in
  ((User.last_token_reset u = None \/
    exists last, User.last_token_reset u = Some last /\ day <= now - last) ->
   User.last_token_reset u' = Some now /\
   u' = User.set_last_token_reset (Some now) (User.set_tokens (User.tokens u') u) /\
   (User.plan u = "free" -> User.tokens u' = 3) /\
   (User.plan u = "pro" -> User.tokens u' = 15) /\
   (User.plan u = "ultimate" -> User.tokens u' = User.tokens u)) /\
  ((exists last, User.last_token_reset u = Some last /\ now - last < day) ->
   u' = u) /\
  (exists t, User.last_token_reset u' = Some t /\
   (forall now', now' - t < day -> User.reset_tokens_if_needed u' now' = u') /\
   (forall now', day <= now' - t ->
      User.last_token_reset (User.reset_tokens_if_needed u' now') = Some now')).
Proof.
  intros u'. split; [| split].
  - intros Hdue. apply reset_due_true in Hdue.
    destruct (reset_when_due u now Hdue) as (Heq & Hfree & Hpro & Hother).
    fold u' in Heq, Hfree, Hpro, Hother.
    split; [now rewrite Heq |]. split; [exact Heq |].
    split; [exact Hfree |]. split; [exact Hpro |].
    intros Hult. apply Hother; rewrite Hult; discriminate.
  - intros Hnot. apply reset_due_false in Hnot.
    unfold u', User.reset_tokens_if_needed. now rewrite Hnot.
  - destruct (reset_stamp u now) as [t Ht]. fold u' in Ht.
    exists t. split; [exact Ht |]. split.
    + intros now' Hlt. unfold User.reset_tokens_if_needed.
      replace (User.reset_due u' now') with false; [reflexivity |].
      symmetry. apply reset_due_false. now exists t.
    + intros now' Hge.
      assert (Hdue : User.reset_due u' now' = true).
      { apply reset_due_true. right. now exists t. }
      destruct (reset_when_due u' now' Hdue) as (Heq & _). now rewrite Heq.
Qed.

Lemma reset_tokens_if_needed_witness :
  (exists last, User.last_token_reset (User.set_tokens 0 alice) = Some last /\
                day <= day - last) /\
  User.tokens (User.reset_tokens_if_needed (User.set_tokens 0 alice) day) = 3.
Proof.
  assert (H : exists last,
             User.last_token_reset (User.set_tokens 0 alice) = Some last /\
             day <= day - last).
  { exists 0. split; [reflexivity | unfold day; lia]. }
  split; [exact H |].
  pose proof (reset_tokens_if_needed_spec (User.set_tokens 0 alice) day) as S.
  cbv zeta in S. destruct S as [S _].
  destruct (S (or_intror H)) as (_ & _ & Hfree & _).
  apply Hfree. reflexivity.
Defined.

(** C3 (as stated) fails on an account without [last_token_reset]: no
    elapsed time can be measured, yet the call refills and stamps it. *)
Lemma reset_fires_without_stamp :
  User.last_token_reset unstamped = None /\
  User.reset_tokens_if_needed unstamped 0 <> unstamped /\
  User.tokens (User.reset_tokens_if_needed unstamped 0) = 3 /\
  User.last_token_reset (User.reset_tokens_if_needed unstamped 0) = Some 0.
Proof. repeat split; try reflexivity. discriminate. Qed.

(** C4: [deduct_token] sets the tokens to [max 0 (tokens - 1)] and touches
    nothing else unless the plan is ultimate, and leaves an ultimate account
    as it is; the balance after it is never negative off the ultimate plan,
    and never turns negative on any plan. *)
Theorem deduct_token_spec (u : User.t) :
  (User.plan u <> "ultimate" ->
   User.deduct_token u = User.set_tokens (Z.max 0 (User.tokens u - 1)) u /\
   0 <= User.tokens (User.deduct_token u)) /\
  (User.plan u = "ultimate" -> User.deduct_token u = u) /\
  (0 <= User.tokens u -> 0 <= User.tokens (User.deduct_token u)).
Proof.
  split; [| split].
  - intros Hne. apply is_ultimate_user_false in Hne.
    unfold User.deduct_token. rewrite Hne. simpl. split; [reflexivity | lia].
  - intros Hult. apply is_ultimate_user_true in Hult.
    unfold User.deduct_token. now rewrite Hult.
  - apply deduct_token_nonneg.
Qed.

Lemma deduct_token_witness :
  User.plan alice <> "ultimate" /\ User.tokens (User.deduct_token alice) = 2 /\
  User.plan unstamped <> "ultimate" /\ User.tokens (User.deduct_token unstamped) = 0 /\
  User.plan vip = "ultimate" /\ User.deduct_token vip = vip.
Proof.
  assert (Ha : User.plan alice <> "ultimate") by discriminate.
  assert (Hn : User.plan unstamped <> "ultimate") by discriminate.
  assert (Hv : User.plan vip = "ultimate") by reflexivity.
  split; [exact Ha |]. split.
  { destruct (proj1 (deduct_token_spec alice) Ha) as [-> _]. reflexivity. }
  split; [exact Hn |]. split.
  { destruct (proj1 (deduct_token_spec unstamped) Hn) as [-> _]. reflexivity. }
  split; [exact Hv |].
  exact (proj1 (proj2 (deduct_token_spec vip)) Hv).
Defined.

(** C5: [has_tokens] holds exactly when the balance is positive or the plan
    is ultimate; an ultimate account has tokens whatever its balance, zero
    included. *)
Theorem has_tokens_iff (u : User.t) :
  (User.has_tokens u = true <-> 0 < User.tokens u \/ User.plan u = "ultimate") /\
  (forall n : Z, User.has_tokens (User.set_plan "ultimate" (User.set_tokens n u)) = true) /\
  (User.plan u = "ultimate" -> User.has_tokens u = true).
Proof.
  assert (H : User.has_tokens u = true <->
              0 < User.tokens u \/ User.plan u = "ultimate").
  { unfold User.has_tokens.
    now rewrite Bool.orb_true_iff, Z.ltb_lt, is_ultimate_user_true. }
  split; [exact H |]. split.
  - intros n. unfold User.has_tokens. apply Bool.orb_true_iff. right. reflexivity.
  - intros Hult. apply H. now right.
Qed.

Lemma has_tokens_witness :
  User.tokens vip = 0 /\ User.plan vip = "ultimate" /\ User.has_tokens vip = true.
Proof.
  split; [reflexivity |]. split; [reflexivity |].
  apply (has_tokens_iff vip). reflexivity.
Defined.

(** ** The AI utility *)

Lemma get_ai_response_failure (post : Service) (prompt system_prompt : string) :
  post prompt system_prompt = Raised \/
  (exists code content,
     post prompt system_prompt = Replied code content /\ code <> 200) ->
  get_ai_response post prompt system_prompt = None.
Proof.
  unfold get_ai_response. intros [-> | (code & content & -> & Hne)].
  - reflexivity.
  - apply Z.eqb_neq in Hne. now rewrite Hne.
Qed.

(** A 200 whose body cannot be read, or whose text is blank, falls back too. *)
Lemma generate_bio_unusable_reply (post : Service) (name profession skills : string) :
  post (bio_prompt name profession skills) bio_system = Replied 200 None \/
  (exists s, post (bio_prompt name profession skills) bio_system = Replied 200 (Some s) /\
             Py.strip s = "") ->
  generate_bio post name profession skills = fallback_bio name profession skills.
Proof.
  unfold generate_bio, get_ai_response. intros [-> | (s & -> & Hs)]; simpl.
  - reflexivity.
  - now rewrite Hs.
Qed.

(** C9: when the call to the service raises (no connection, timeout) or the
    reply has a status other than 200, [generate_bio] returns the templated
    sentence, which contains the name, the profession and the skills; being a
    total function to text, it surfaces no error. *)
Theorem generate_bio_absorbs_failure
    (post : Service) (name profession skills : string)
    (Hfail : post (bio_prompt name profession skills) bio_system = Raised \/
             exists code content,
               post (bio_prompt name profession skills) bio_system
               = Replied code content /\ code <> 200) :
  generate_bio post name profession skills = fallback_bio name profession skills /\
  fallback_bio name profession skills
  = "I'm " +:+ name +:+ ", a " +:+ profession +:+ " skilled in " +:+ skills +:+
    ", blending creativity and logic to craft meaningful work." /\
  Contains name (generate_bio post name profession skills) /\
  Contains profession (generate_bio post name profession skills) /\
  Contains skills (generate_bio post name profession skills).
Proof.
  assert (E : generate_bio post name profession skills
              = fallback_bio name profession skills).
  { unfold generate_bio. now rewrite (get_ai_response_failure _ _ _ Hfail). }
  rewrite E. split; [reflexivity |]. split; [reflexivity |].
  split; [apply fallback_bio_contains_name |].
  split; [apply fallback_bio_contains_profession | apply fallback_bio_contains_skills].
Qed.

Lemma generate_bio_absorbs_failure_witness :
  generate_bio (fun _ _ => Replied 503 (Some "Service Unavailable"))
               "Alice" "designer" "Rocq, Python"
  = "I'm Alice, a designer skilled in Rocq, Python, blending creativity and logic to craft meaningful work." /\
  generate_bio (fun _ _ => Raised) "Alice" "designer" "Rocq, Python"
  = fallback_bio "Alice" "designer" "Rocq, Python".
Proof.
  split.
  - refine (proj1 (generate_bio_absorbs_failure
                     (fun _ _ => Replied 503 (Some "Service Unavailable"))
                     "Alice" "designer" "Rocq, Python" _)).
    right. exists 503, (Some "Service Unavailable"). split; [reflexivity | lia].
  - refine (proj1 (generate_bio_absorbs_failure (fun _ _ => Raised)
                     "Alice" "designer" "Rocq, Python" _)).
    left. reflexivity.
Defined.

(** ** Purchases and upgrades *)

Lemma price_map_Some (count price : Z) :
  price_map !! count = Some price <->
  (count = 1 /\ price = 50) \/ (count = 5 /\ price = 100).
Proof.
  unfold price_map. rewrite lookup_insert_Some, lookup_singleton_Some. lia.
Qed.

Lemma price_map_None (count : Z) :
  price_map !! count = None <-> count <> 1 /\ count <> 5.
Proof.
  unfold price_map. rewrite lookup_insert_None, lookup_singleton_None. lia.
Qed.

(** C6: for a pack of the price table [{1: 50, 5: 100}], [buy_token] adds
    exactly [count] to the caller's tokens and inserts exactly one ledger row,
    under a fresh key, whose amount is the pack's price; for any other count it
    flashes the invalid-pack error and leaves the whole database unchanged. *)
Theorem buy_token_spec (st : DB) (uid : Z) (u : User.t) (count now : Z)
    (Hu : users st !! uid = Some u) :
  (forall price, price_map !! count = Some price ->
     (buy_token st uid count now).1
     = mkDB (<[User.id u := User.set_tokens (User.tokens u + count) u]> (users st))
            (resumes st)
            (<[next_id (purchases st) :=
                 Purchase.mk (next_id (purchases st)) (User.id u) price
                             (Py.str count +:+ " Token Pack") now]> (purchases st)) /\
     purchases st !! next_id (purchases st) = None /\
     size (purchases (buy_token st uid count now).1) = S (size (purchases st))) /\
  (price_map !! count = None ->
     buy_token st uid count now
     = (st, flash "Invalid token pack selected." "error" (Redirect "pricing"))) /\
  price_map !! 1 = Some 50 /\ price_map !! 5 = Some 100 /\ price_map !! 3 = None.
Proof.
  split; [| split].
  - intros price Hp. unfold buy_token. rewrite Hu, Hp. simpl.
    assert (Hnz : (price =? 0) = false).
    { apply Z.eqb_neq. apply price_map_Some in Hp. lia. }
    rewrite Hnz. simpl. split; [reflexivity |].
    split; [apply next_id_fresh |].
    apply map_size_insert_None, next_id_fresh.
  - intros Hp. unfold buy_token. now rewrite Hu, Hp.
  - repeat split.
Qed.

Lemma buy_token_witness :
  users (mkDB {[1 := alice]} ∅ ∅) !! 1 = Some alice /\
  User.tokens <$> users (buy_token (mkDB {[1 := alice]} ∅ ∅) 1 1 7).1 !! 1 = Some 4 /\
  Purchase.amount <$> purchases (buy_token (mkDB {[1 := alice]} ∅ ∅) 1 1 7).1 !! 1
  = Some 50 /\
  buy_token (mkDB {[1 := alice]} ∅ ∅) 1 3 7
  = (mkDB {[1 := alice]} ∅ ∅,
     flash "Invalid token pack selected." "error" (Redirect "pricing")).
Proof.
  pose proof (buy_token_spec (mkDB {[1 := alice]} ∅ ∅) 1 alice 1 7 eq_refl)
    as (H1 & _).
  pose proof (buy_token_spec (mkDB {[1 := alice]} ∅ ∅) 1 alice 3 7 eq_refl)
    as (_ & H3 & _).
  destruct (H1 50 eq_refl) as (E & _).
  split; [reflexivity |].
  split; [rewrite E; reflexivity |].
  split; [rewrite E; reflexivity |].
  apply H3. reflexivity.
Defined.

Lemma upgrade_pro_step (st : DB) (uid : Z) (u : User.t) (now : Z) :
  users st !! uid = Some u ->
  (upgrade st uid "pro" now).1
  = mkDB (<[User.id u := User.set_plan "pro" (User.set_tokens (User.tokens u + 15) u)]>
            (users st))
         (resumes st)
         (<[next_id (purchases st) :=
              Purchase.mk (next_id (purchases st)) (User.id u) 199 "Pro Pack" now]>
            (purchases st)).
Proof. intros Hu. unfold upgrade. now rewrite Hu. Qed.

(** C7: [upgrade] to pro adds 15 tokens, sets the plan to pro and inserts one
    ledger row of amount 199; to ultimate it sets the tokens to 9999 and the
    plan to ultimate and inserts one ledger row of amount 499; for any other
    plan value it flashes the invalid-option error and leaves the whole
    database unchanged. The account stored afterwards is read back column by
    column: plan and tokens are the new ones, every other column is as it
    was. *)
Theorem upgrade_spec (st : DB) (uid : Z) (u : User.t) (plan : string) (now : Z)
    (Hu : users st !! uid = Some u) :
  (plan = "pro" ->
     (upgrade st uid plan now).1
     = mkDB (<[User.id u := User.set_plan "pro" (User.set_tokens (User.tokens u + 15) u)]>
               (users st))
            (resumes st)
            (<[next_id (purchases st) :=
                 Purchase.mk (next_id (purchases st)) (User.id u) 199 "Pro Pack" now]>
               (purchases st))) /\
  (plan = "ultimate" ->
     (upgrade st uid plan now).1
     = mkDB (<[User.id u := User.set_plan "ultimate" (User.set_tokens 9999 u)]>
               (users st))
            (resumes st)
            (<[next_id (purchases st) :=
                 Purchase.mk (next_id (purchases st)) (User.id u) 499 "Ultimate Pack" now]>
               (purchases st))) /\
  (plan = "pro" \/ plan = "ultimate" ->
     purchases st !! next_id (purchases st) = None /\
     size (purchases (upgrade st uid plan now).1) = S (size (purchases st))) /\
  (plan <> "pro" -> plan <> "ultimate" ->
     upgrade st uid plan now
     = (st, flash "Invalid upgrade option." "error" (Redirect "pricing"))) /\
  (plan = "pro" ->
     users (upgrade st uid plan now).1 !! User.id u
     = Some (User.mk (User.id u) (User.username u) (User.email u)
                     (User.password u) (User.first_name u) (User.last_name u)
                     "pro" (User.tokens u + 15)
                     (User.last_token_reset u) (User.last_generated u)) /\
     (upgrade st uid plan now).2
     = flash "Upgraded to Pro Pack. 15 tokens added + Premium templates unlocked."
             "success" (Redirect "my_resumes")) /\
  (plan = "ultimate" ->
     users (upgrade st uid plan now).1 !! User.id u
     = Some (User.mk (User.id u) (User.username u) (User.email u)
                     (User.password u) (User.first_name u) (User.last_name u)
                     "ultimate" 9999
                     (User.last_token_reset u) (User.last_generated u)) /\
     (upgrade st uid plan now).2
     = flash "Welcome to Ultimate Pack. Unlimited tokens + all templates unlocked."
             "success" (Redirect "my_resumes")).
Proof.
  split; [| split; [| split; [| split; [| split]]]].
  - intros ->. now apply upgrade_pro_step.
  - intros ->. unfold upgrade. now rewrite Hu.
  - intros Hp. split; [apply next_id_fresh |].
    unfold upgrade. rewrite Hu.
    destruct Hp as [-> | ->]; simpl; apply map_size_insert_None, next_id_fresh.
  - intros Hpro Hult. unfold upgrade. rewrite Hu.
    now rewrite !bool_decide_eq_false_2.
  - intros ->. unfold upgrade. rewrite Hu. simpl.
    split; [apply lookup_insert_eq | reflexivity].
  - intros ->. unfold upgrade. rewrite Hu. simpl.
    split; [apply lookup_insert_eq | reflexivity].
Qed.

Lemma upgrade_witness :
  User.tokens <$> users (upgrade (mkDB {[1 := alice]} ∅ ∅) 1 "pro" 7).1 !! 1 = Some 18 /\
  User.plan <$> users (upgrade (mkDB {[1 := alice]} ∅ ∅) 1 "pro" 7).1 !! 1
  = Some "pro" /\
  User.tokens <$> users (upgrade (mkDB {[1 := alice]} ∅ ∅) 1 "ultimate" 7).1 !! 1
  = Some 9999 /\
  User.plan <$> users (upgrade (mkDB {[1 := alice]} ∅ ∅) 1 "ultimate" 7).1 !! 1
  = Some "ultimate" /\
  Purchase.amount <$> purchases (upgrade (mkDB {[1 := alice]} ∅ ∅) 1 "pro" 7).1 !! 1
  = Some 199 /\
  Purchase.amount <$> purchases (upgrade (mkDB {[1 := alice]} ∅ ∅) 1 "ultimate" 7).1 !! 1
  = Some 499 /\
  upgrade (mkDB {[1 := alice]} ∅ ∅) 1 "gold" 7
  = (mkDB {[1 := alice]} ∅ ∅,
     flash "Invalid upgrade option." "error" (Redirect "pricing")).
Proof.
  pose proof (upgrade_spec (mkDB {[1 := alice]} ∅ ∅) 1 alice "pro" 7 eq_refl)
    as (Hp & _ & _ & _ & Hpro & _).
  pose proof (upgrade_spec (mkDB {[1 := alice]} ∅ ∅) 1 alice "ultimate" 7 eq_refl)
    as (_ & Hu & _ & _ & _ & Hult).
  pose proof (upgrade_spec (mkDB {[1 := alice]} ∅ ∅) 1 alice "gold" 7 eq_refl)
    as (_ & _ & _ & Hg & _).
  destruct (Hpro eq_refl) as [Epro _]. destruct (Hult eq_refl) as [Eult _].
  change (User.id alice) with 1 in Epro, Eult.
  split; [rewrite Epro; reflexivity |].
  split; [rewrite Epro; reflexivity |].
  split; [rewrite Eult; reflexivity |].
  split; [rewrite Eult; reflexivity |].
  split; [rewrite (Hp eq_refl); reflexivity |].
  split; [rewrite (Hu eq_refl); reflexivity |].
  apply Hg; discriminate.
Defined.

Lemma upgrade_pro_each_spec (nows : list Z) (st : DB) (uid : Z) (u : User.t) :
  users st !! uid = Some u -> User.id u = uid ->
  exists u',
    users (upgrade_pro_each st uid nows) !! uid = Some u' /\
    User.id u' = uid /\
    User.tokens u' = User.tokens u + 15 * Z.of_nat (List.length nows) /\
    (nows <> [] -> User.plan u' = "pro") /\
    size (purchases (upgrade_pro_each st uid nows))
    = (size (purchases st) + List.length nows)%nat.
Proof.
  revert st u. induction nows as [|now nows IH]; intros st u Hu Hid.
  - exists u. simpl. repeat split; [exact Hu | exact Hid | lia | congruence | lia].
  - unfold upgrade_pro_each. simpl fold_left.
    fold (upgrade_pro_each (upgrade st uid "pro" now).1 uid nows).
    rewrite (upgrade_pro_step st uid u now Hu).
    set (u1 := User.set_plan "pro" (User.set_tokens (User.tokens u + 15) u)).
    set (st1 := mkDB _ _ _).
    assert (Hu1 : users st1 !! uid = Some u1).
    { unfold st1. simpl. rewrite Hid. apply lookup_insert_eq. }
    destruct (IH st1 u1 Hu1 Hid) as (u' & Hlook & Hid' & Htok & Hplan & Hsize).
    exists u'. split; [exact Hlook |]. split; [exact Hid' |].
    split; [rewrite Htok; simpl; lia |]. split.
    + intros _. destruct nows as [|now' nows'].
      * change (users st1 !! uid = Some u') in Hlook.
        rewrite Hu1 in Hlook. now injection Hlook as <-.
      * now apply Hplan.
    + rewrite Hsize. unfold st1. simpl.
      rewrite (map_size_insert_None _ _ _ (next_id_fresh (purchases st))). lia.
Qed.

(** C10: the pro upgrade looks at no field of the account. Whatever the
    current plan, it sets the plan to pro and adds 15 to the balance; on an
    ultimate account holding 9999 tokens the plan becomes pro (the account is
    no longer ultimate) and the balance 10014; requested [n] times in a row,
    it adds [15 * n] tokens and [n] ledger rows. *)
Theorem upgrade_pro_unconditional
    (st : DB) (uid : Z) (u : User.t) (now : Z) (nows : list Z)
    (Hu : users st !! uid = Some u) (Hid : User.id u = uid) :
  users (upgrade st uid "pro" now).1 !! uid
  = Some (User.set_plan "pro" (User.set_tokens (User.tokens u + 15) u)) /\
  (User.plan u = "ultimate" -> User.tokens u = 9999 ->
   exists u', users (upgrade st uid "pro" now).1 !! uid = Some u' /\
              User.plan u' = "pro" /\ User.is_ultimate_user u' = false /\
              User.tokens u' = 10014) /\
  (exists u', users (upgrade_pro_each st uid nows) !! uid = Some u' /\
              User.tokens u' = User.tokens u + 15 * Z.of_nat (List.length nows) /\
              (nows <> [] -> User.plan u' = "pro")) /\
  size (purchases (upgrade_pro_each st uid nows))
  = (size (purchases st) + List.length nows)%nat.
Proof.
  assert (H1 : users (upgrade st uid "pro" now).1 !! uid
               = Some (User.set_plan "pro" (User.set_tokens (User.tokens u + 15) u))).
  { rewrite (upgrade_pro_step st uid u now Hu). simpl. rewrite Hid.
    apply lookup_insert_eq. }
  destruct (upgrade_pro_each_spec nows st uid u Hu Hid)
    as (u' & Hlook & _ & Htok & Hplan & Hsize).
  split; [exact H1 |]. split; [| split; [| exact Hsize]].
  - intros _ Htokens. eexists. split; [exact H1 |].
    simpl. rewrite Htokens. repeat split.
  - exists u'. repeat split; assumption.
Qed.

Lemma upgrade_pro_unconditional_witness :
  User.plan <$> users (upgrade (mkDB {[1 := User.set_tokens 9999 vip]} ∅ ∅) 1 "pro" 7).1 !! 1
  = Some "pro" /\
  User.tokens <$> users (upgrade (mkDB {[1 := User.set_tokens 9999 vip]} ∅ ∅) 1 "pro" 7).1 !! 1
  = Some 10014 /\
  size (purchases (upgrade_pro_each (mkDB {[1 := User.set_tokens 9999 vip]} ∅ ∅) 1 [7; 8; 9]))
  = 3%nat.
Proof.
  pose proof (upgrade_pro_unconditional
                (mkDB {[1 := User.set_tokens 9999 vip]} ∅ ∅) 1
                (User.set_tokens 9999 vip) 7 [7; 8; 9] eq_refl eq_refl)
    as (H1 & _ & _ & Hsize).
  split; [rewrite H1; reflexivity |].
  split; [rewrite H1; reflexivity |].
  rewrite Hsize. reflexivity.
Defined.

(** ** Resume store *)

(** C8: when the resume exists and its [user_id] is not the caller's id,
    [delete_resume] flashes "Unauthorized", redirects, and returns the
    database as it was: the row is still there. *)
Theorem delete_resume_unauthorized
    (st : DB) (uid : Z) (u : User.t) (resume_id : Z) (r : Resume.t)
    (Hu : users st !! uid = Some u)
    (Hr : resumes st !! resume_id = Some r)
    (Hne : Resume.user_id r <> User.id u) :
  delete_resume st uid resume_id
  = (st, flash "Unauthorized" "error" (Redirect "start")) /\
  resumes (delete_resume st uid resume_id).1 !! resume_id = Some r.
Proof.
  assert (E : delete_resume st uid resume_id
              = (st, flash "Unauthorized" "error" (Redirect "start"))).
  { unfold delete_resume. rewrite Hu, Hr.
    apply Z.eqb_neq in Hne. now rewrite Hne. }
  split; [exact E | now rewrite E].
Qed.

Lemma delete_resume_unauthorized_witness :
  delete_resume shared_db 1 1
  = (shared_db, flash "Unauthorized" "error" (Redirect "start")) /\
  resumes (delete_resume shared_db 1 1).1 !! 1 = Some bobs_resume.
Proof.
  apply (delete_resume_unauthorized shared_db 1 alice 1 bobs_resume);
    [reflexivity | reflexivity | simpl; lia].
Defined.

(** The owner's delete does remove the row, and a missing row is a 404. *)
Lemma delete_resume_owner (st : DB) (uid : Z) (u : User.t) (resume_id : Z)
    (r : Resume.t) :
  users st !! uid = Some u -> resumes st !! resume_id = Some r ->
  Resume.user_id r = User.id u ->
  resumes (delete_resume st uid resume_id).1 !! resume_id = None.
Proof.
  intros Hu Hr Heq. unfold delete_resume. rewrite Hu, Hr, Heq, Z.eqb_refl.
  simpl. apply lookup_delete_eq.
Qed.

Lemma delete_resume_not_found (st : DB) (uid : Z) (u : User.t) (resume_id : Z) :
  users st !! uid = Some u -> resumes st !! resume_id = None ->
  delete_resume st uid resume_id = (st, mkResponse None (Abort 404)).
Proof. intros Hu Hr. unfold delete_resume. now rewrite Hu, Hr. Qed.

(** ** The balance is never negative *)

Lemma save_user_tokens_nonneg (u : User.t) (st : DB) :
  0 <= User.tokens u -> tokens_nonneg st -> tokens_nonneg (save_user u st).
Proof. intros Hu Hst. unfold tokens_nonneg. simpl. now apply map_Forall_insert_2. Qed.

Lemma buy_token_tokens_nonneg (st : DB) (uid count now : Z) :
  tokens_nonneg st -> tokens_nonneg (buy_token st uid count now).1.
Proof.
  intros Hst. unfold buy_token.
  destruct (users st !! uid) as [u|] eqn:Hu; [| exact Hst].
  destruct (price_map !! count) as [price|] eqn:Hp; [| exact Hst]. simpl.
  destruct (price =? 0); [exact Hst |].
  apply save_user_tokens_nonneg; [| exact Hst].
  apply price_map_Some in Hp. specialize (Hst uid u Hu). simpl in *. lia.
Qed.

Lemma upgrade_tokens_nonneg (st : DB) (uid : Z) (plan : string) (now : Z) :
  tokens_nonneg st -> tokens_nonneg (upgrade st uid plan now).1.
Proof.
  intros Hst. unfold upgrade.
  destruct (users st !! uid) as [u|] eqn:Hu; [| exact Hst].
  specialize (Hst uid u Hu) as Hu0. simpl in Hu0.
  repeat case_bool_decide; try exact Hst;
    (apply save_user_tokens_nonneg; [simpl; lia | exact Hst]).
Qed.

Lemma register_tokens_nonneg (hash lower : string -> string) (st : DB) (valid : bool)
    (first_name last_name email password : string) (now : Z) :
  tokens_nonneg st ->
  tokens_nonneg (register hash lower st valid first_name last_name email password now).1.
Proof.
  intros Hst. unfold register.
  destruct valid; [| exact Hst].
  repeat case_bool_decide; try exact Hst.
  apply save_user_tokens_nonneg; [simpl; lia | exact Hst].
Qed.

Lemma generate_tokens_nonneg (free : list string) (secure : string -> string)
    (save page : string -> bool)
    (st : DB) (uid : Z) (form : Form) (pic : option string) (post : Service)
    (now_reset now_generated now_insert : Z) :
  tokens_nonneg st ->
  tokens_nonneg
    (generate free secure save page st uid form pic post now_reset now_generated now_insert).1.
Proof.
  intros Hst. unfold generate.
  destruct (users st !! uid) as [u|] eqn:Hu; [| exact Hst].
  specialize (Hst uid u Hu) as Hu0. simpl in Hu0.
  pose proof (reset_tokens_nonneg u now_reset Hu0) as Hu1.
  pose proof (save_user_tokens_nonneg _ st Hu1 Hst) as Hst1.
  repeat case_match; try exact Hst1;
    (apply save_user_tokens_nonneg; [| exact Hst1]);
    now apply deduct_token_nonneg.
Qed.

(** C2: every operation that writes a balance keeps it non-negative. For an
    account with [tokens >= 0], [reset_tokens_if_needed] and [deduct_token]
    return an account with [tokens >= 0]; for a database all of whose accounts
    have [tokens >= 0], [buy_token], [upgrade] and [register] return such a
    database (a registration creates the account with 3 tokens), and so does
    [generate], which calls the first two. *)
Theorem tokens_never_negative (u : User.t) (st : DB)
    (Hu : 0 <= User.tokens u) (Hst : tokens_nonneg st) :
  (forall now, 0 <= User.tokens (User.reset_tokens_if_needed u now)) /\
  0 <= User.tokens (User.deduct_token u) /\
  (forall uid count now, tokens_nonneg (buy_token st uid count now).1) /\
  (forall uid plan now, tokens_nonneg (upgrade st uid plan now).1) /\
  (forall hash lower valid first_name last_name email password now,
     tokens_nonneg
       (register hash lower st valid first_name last_name email password now).1 /\
     User.tokens (new_user hash lower st first_name last_name email password now) = 3) /\
  (forall free secure save page uid form pic post now_reset now_generated now_insert,
     tokens_nonneg
       (generate free secure save page st uid form pic post
                 now_reset now_generated now_insert).1).
Proof.
  split; [intros; now apply reset_tokens_nonneg |].
  split; [now apply deduct_token_nonneg |].
  split; [intros; now apply buy_token_tokens_nonneg |].
  split; [intros; now apply upgrade_tokens_nonneg |].
  split; [intros; split; [now apply register_tokens_nonneg | reflexivity] |].
  intros; now apply generate_tokens_nonneg.
Qed.

Lemma tokens_never_negative_witness :
  0 <= User.tokens unstamped /\ tokens_nonneg shared_db /\
  0 <= User.tokens (User.deduct_token unstamped) /\
  tokens_nonneg (buy_token shared_db 1 5 7).1 /\
  tokens_nonneg (upgrade shared_db 1 "ultimate" 7).1.
Proof.
  assert (Hu : 0 <= User.tokens unstamped) by (simpl; lia).
  assert (Hst : tokens_nonneg shared_db).
  { apply map_Forall_singleton. simpl. lia. }
  pose proof (tokens_never_negative unstamped shared_db Hu Hst)
    as (_ & Hd & Hb & Hup & _).
  split; [exact Hu |]. split; [exact Hst |]. split; [exact Hd |].
  split; [apply Hb | apply Hup].
Defined.

(** ** Generation workflow *)

Lemma truthy_true (s : string) : Py.truthy s = true <-> s <> "".
Proof. destruct s; simpl; split; congruence. Qed.

Lemma truthy_false (s : string) : Py.truthy s = false <-> s = "".
Proof. destruct s; simpl; split; congruence. Qed.

(** The text [generate_bio] returns: the templated sentence, or the service's
    stripped, non-blank text of a 200 reply. *)
Lemma generate_bio_cases (post : Service) (name profession skills : string) :
  generate_bio post name profession skills = fallback_bio name profession skills \/
  exists text,
    post (bio_prompt name profession skills) bio_system = Replied 200 (Some text) /\
    Py.strip text <> "" /\
    generate_bio post name profession skills = Py.strip text.
Proof.
  unfold generate_bio, get_ai_response.
  destruct (post _ _) as [|code [text|]]; simpl; try (now left).
  - destruct (code =? 200) eqn:Hcode; simpl; [| now left].
    apply Z.eqb_eq in Hcode. subst code.
    destruct (Py.truthy (Py.strip text)) eqn:Ht; [| now left].
    right. exists text. repeat split. now apply truthy_true.
  - destruct (code =? 200); now left.
Qed.

Lemma reset_free_account (u : User.t) (now : Z) :
  User.plan u = "free" -> User.tokens u = 3 ->
  User.plan (User.reset_tokens_if_needed u now) = "free" /\
  User.tokens (User.reset_tokens_if_needed u now) = 3 /\
  User.id (User.reset_tokens_if_needed u now) = User.id u.
Proof.
  intros Hplan Htok. unfold User.reset_tokens_if_needed, User.is_free_user.
  rewrite (bool_decide_eq_true_2 _ Hplan).
  destruct (User.reset_due u now); simpl; auto.
Qed.

Lemma build_resume_ok (secure : string -> string) (st : DB) (u : User.t)
    (form : Form) (pic : option string) (post : Service) (now : Z)
    (name profession : string) :
  form_item form "name" = Some name ->
  form_item form "profession" = Some profession ->
  exists r,
    build_resume secure st u form pic post now = Some r /\
    Resume.id r = next_id (resumes st) /\
    Resume.user_id r = User.id u /\
    Resume.name r = name /\
    Resume.profession r = profession /\
    Resume.template r = form_get form "template" "classic" /\
    Resume.bio r
    = (if Py.truthy (Py.strip (form_get form "bio" ""))
       then Py.strip (form_get form "bio" "")
       else generate_bio post name profession
              (Py.join ", " (parse_skills (form_get form "skills" "")))).
Proof.
  intros Hname Hprof. unfold build_resume. rewrite Hname, Hprof.
  destruct (Py.truthy (Py.strip (form_get form "bio" ""))); simpl;
    eexists; (split; [reflexivity |]); simpl; repeat split.
Qed.

(** The text [generate_bio] returns, in the order the code decides it: the
    service's stripped text when the call answers 200 with a text that is not
    blank, and the templated sentence in every other case. *)
Lemma generate_bio_ordered (post : Service) (name profession skills : string) :
  (exists text,
     post (bio_prompt name profession skills) bio_system = Replied 200 (Some text) /\
     Py.strip text <> "" /\
     generate_bio post name profession skills = Py.strip text) \/
  ((forall text,
      post (bio_prompt name profession skills) bio_system = Replied 200 (Some text) ->
      Py.strip text = "") /\
   generate_bio post name profession skills = fallback_bio name profession skills).
Proof.
  unfold generate_bio, get_ai_response.
  destruct (post _ _) as [|code [text|]] eqn:Hpost; simpl.
  - right. split; [discriminate | reflexivity].
  - destruct (code =? 200) eqn:Hcode; simpl.
    + apply Z.eqb_eq in Hcode. subst code.
      destruct (Py.truthy (Py.strip text)) eqn:Ht.
      * left. exists text. repeat split. now apply truthy_true.
      * right. split; [| reflexivity].
        intros text' [= <-]. now apply truthy_false.
    + right. split; [| reflexivity]. apply Z.eqb_neq in Hcode.
      intros text' [= E _]. contradiction.
  - right. split; [| now destruct (code =? 200)]. discriminate.
Qed.

(** C1 (as amended): a free account holding 3 tokens that requests a
    non-premium template with a form carrying [name] and [profession], and
    whose uploaded picture, if there is one, is saved, gets its resume
    stored. The account's tokens become 2 and [last_generated] is stamped;
    exactly one resume row is inserted, under a fresh key, owned by the
    account; the answer is the rendered resume when the template's page
    exists, and a 500 after the commit when it does not. The stored bio is
    the stripped bio of the form when that is not blank; else the stripped
    text of the service's reply when the call answers 200 with a text that is
    not blank; else, and only then, the templated sentence, which contains
    the name. *)
Theorem generate_free_account
    (FREE_TEMPLATES : list string) (secure_filename : string -> string)
    (save_upload template_exists : string -> bool)
    (st : DB) (uid : Z) (u : User.t) (form : Form) (pic : option string)
    (post : Service) (now_reset now_generated now_insert : Z)
    (name profession : string)
    (Hu : users st !! uid = Some u)
    (Hplan : User.plan u = "free")
    (Htokens : User.tokens u = 3)
    (Htemplate : form_get form "template" "classic" ∈ FREE_TEMPLATES)
    (Hname : form_item form "name" = Some name)
    (Hprofession : form_item form "profession" = Some profession)
    (Hsaved : upload_saved secure_filename save_upload pic = true) :
  let given := Py.strip (form_get form "bio" "") in
  let skills := Py.join ", " (parse_skills (form_get form "skills" "")) in
  let page := "resume_" +:+ form_get form "template" "classic" +:+ ".html" in
  exists (u' : User.t) (r : Resume.t),
    generate FREE_TEMPLATES secure_filename save_upload template_exists
             st uid form pic post now_reset now_generated now_insert
    = (mkDB (<[User.id u := u']> (users st))
            (<[next_id (resumes st) := r]> (resumes st))
            (purchases st),
       flash "Resume generated successfully!" "success"
             (if template_exists page then Render page else Abort 500)) /\
    resumes st !! next_id (resumes st) = None /\
    User.id u' = User.id u /\
    User.plan u' = "free" /\
    User.tokens u' = 2 /\
    User.last_generated u' = Some now_generated /\
    Resume.user_id r = User.id u /\
    Resume.name r = name /\
    ((given <> "" /\ Resume.bio r = given) \/
     (given = "" /\
      exists text,
        post (bio_prompt name profession skills) bio_system
        = Replied 200 (Some text) /\
        Py.strip text <> "" /\ Resume.bio r = Py.strip text) \/
     (given = "" /\
      (forall text,
         post (bio_prompt name profession skills) bio_system
         = Replied 200 (Some text) -> Py.strip text = "") /\
      Resume.bio r = fallback_bio name profession skills /\
      Contains name (Resume.bio r))).
Proof.
  intros given skills page.
  destruct (reset_free_account u now_reset Hplan Htokens) as (Hplan1 & Htok1 & Hid1).
  set (u1 := User.reset_tokens_if_needed u now_reset) in *.
  destruct (build_resume_ok secure_filename (save_user u1 st) u1 form pic post
              now_insert name profession Hname Hprofession)
    as (r & Hbuild & Hrid & Hruid & Hrname & _ & _ & Hbio).
  assert (Hult : User.is_ultimate_user u1 = false).
  { apply is_ultimate_user_false. rewrite Hplan1. discriminate. }
  exists (User.set_last_generated (Some now_generated) (User.deduct_token u1)), r.
  split; [| split; [apply next_id_fresh |]].
  - unfold generate. rewrite Hu. fold u1.
    rewrite (bool_decide_eq_true_2 _ Htemplate). simpl negb.
    rewrite Bool.andb_false_l.
    unfold User.has_tokens. rewrite Htok1. simpl negb.
    rewrite Hsaved. simpl negb. cbv iota.
    rewrite Hbuild. unfold save_user, add_resume. simpl.
    unfold User.deduct_token. rewrite Hult. simpl.
    rewrite Hid1, Hrid. simpl. now rewrite insert_insert_eq.
  - unfold User.deduct_token. rewrite Hult. simpl.
    rewrite Hid1, Hplan1, Htok1, Hruid, Hid1.
    repeat (split; [reflexivity || assumption |]).
    fold given in Hbio. fold skills in Hbio.
    destruct (Py.truthy given) eqn:Hgiven.
    + left. split; [now apply truthy_true | exact Hbio].
    + apply truthy_false in Hgiven. right.
      destruct (generate_bio_ordered post name profession skills)
        as [(text & Hpost & Htext & Hgen) | (Hnone & Hfb)].
      * left. split; [exact Hgiven |].
        exists text. repeat split; try assumption. now rewrite Hbio.
      * right. split; [exact Hgiven |]. split; [exact Hnone |].
        rewrite Hbio, Hfb. split; [reflexivity |].
        apply fallback_bio_contains_name.
Qed.

Lemma generate_free_account_witness :
  (exists (u' : User.t) (r : Resume.t),
     generate ["classic"] (fun s => s) (fun _ => true) (fun _ => true)
              alice_db 1 alice_form (Some "me.png") (fun _ _ => Raised) 1 2 3
     = (mkDB {[1 := u']} {[1 := r]} ∅,
        flash "Resume generated successfully!" "success"
              (Render "resume_classic.html")) /\
     User.tokens u' = 2 /\ User.last_generated u' = Some 2 /\
     Resume.user_id r = 1 /\
     Resume.bio r = fallback_bio "Alice" "designer" "Rocq, Python") /\
  (exists r : Resume.t,
     resumes (generate ["classic"] (fun s => s) (fun _ => true) (fun _ => false)
                       alice_db 1 alice_form None terse_service 1 2 3).1
     = {[1 := r]} /\
     Resume.bio r = "Hi.").
Proof.
  assert (Hu : users alice_db !! 1 = Some alice) by reflexivity.
  assert (Ht : form_get alice_form "template" "classic" ∈ ["classic"])
    by apply list_elem_of_here.
  split.
  - destruct (generate_free_account ["classic"] (fun s => s) (fun _ => true)
                (fun _ => true) alice_db 1 alice alice_form (Some "me.png")
                (fun _ _ => Raised) 1 2 3 "Alice" "designer"
                Hu eq_refl eq_refl Ht eq_refl eq_refl eq_refl)
      as (u' & r & E & _ & _ & _ & Htok & Hgen & Hown & _ & Hbio).
    exists u', r. rewrite E.
    split; [simpl; now rewrite insert_singleton_eq, insert_empty |].
    split; [exact Htok |]. split; [exact Hgen |]. split; [exact Hown |].
    destruct Hbio as [[Hgiven _] | [[_ (text & Hpost & _)] | (_ & _ & Hfb & _)]].
    + now contradiction Hgiven.
    + discriminate Hpost.
    + exact Hfb.
  - destruct (generate_free_account ["classic"] (fun s => s) (fun _ => true)
                (fun _ => false) alice_db 1 alice alice_form None
                terse_service 1 2 3 "Alice" "designer"
                Hu eq_refl eq_refl Ht eq_refl eq_refl eq_refl)
      as (u' & r & E & _ & _ & _ & _ & _ & _ & _ & Hbio).
    exists r. rewrite E. split; [simpl; now rewrite insert_empty |].
    destruct Hbio as [[Hgiven _] | [[_ (text & Hpost & _ & Hr)] | (_ & Hnone & _)]].
    + now contradiction Hgiven.
    + injection Hpost as <-. exact Hr.
    + specialize (Hnone " Hi. " eq_refl). discriminate Hnone.
Defined.

(** C1 (as stated) fails when the bio is left blank and the service answers:
    the account is free with 3 tokens and the template is not premium, yet
    the bio stored with the one inserted row is the service's text, which is
    neither the bio of the form, nor the templated sentence, nor any text
    containing the name. *)
Lemma generate_bio_from_service :
  User.plan alice = "free" /\ User.tokens alice = 3 /\
  form_get alice_form "template" "classic" ∈ ["classic"] /\
  exists r : Resume.t,
    generate ["classic"] (fun s => s) (fun _ => true) (fun _ => true)
             alice_db 1 alice_form None terse_service 1 2 3
    = (mkDB {[ 1 := User.set_last_generated (Some 2) (User.set_tokens 2 alice) ]}
            {[ 1 := r ]} ∅,
       flash "Resume generated successfully!" "success"
             (Render "resume_classic.html")) /\
    Resume.user_id r = User.id alice /\
    Resume.name r = "Alice" /\
    Resume.bio r = "Hi." /\
    Resume.bio r <> form_get alice_form "bio" "" /\
    Resume.bio r <> Py.strip (form_get alice_form "bio" "") /\
    Resume.bio r <> fallback_bio "Alice" "designer" "Rocq, Python" /\
    ~ Contains "Alice" (Resume.bio r).
Proof.
  split; [reflexivity |]. split; [reflexivity |].
  split; [apply list_elem_of_here |].
  eexists. split; [vm_compute; reflexivity |]. simpl.
  repeat (split; [reflexivity || discriminate |]).
  intros H. apply Contains_length in H. simpl in H. lia.
Qed.

(** Without [name] (or [profession]) in the form the route answers 400 and
    inserts nothing; only the reset of step 1 is committed. *)
Lemma generate_missing_field (free : list string) (secure : string -> string)
    (save page : string -> bool)
    (st : DB) (uid : Z) (u : User.t) (form : Form) (pic : option string)
    (post : Service) (now_reset now_generated now_insert : Z) :
  users st !! uid = Some u ->
  User.plan u = "free" -> User.tokens u = 3 ->
  form_get form "template" "classic" ∈ free ->
  upload_saved secure save pic = true ->
  form_item form "name" = None \/ form_item form "profession" = None ->
  generate free secure save page st uid form pic post now_reset now_generated now_insert
  = (save_user (User.reset_tokens_if_needed u now_reset) st,
     mkResponse None (Abort 400)).
Proof.
  intros Hu Hplan Htok Htmpl Hsaved Hmiss.
  destruct (reset_free_account u now_reset Hplan Htok) as (_ & Htok1 & _).
  unfold generate. rewrite Hu.
  rewrite (bool_decide_eq_true_2 _ Htmpl). simpl negb.
  rewrite Bool.andb_false_l.
  unfold User.has_tokens. rewrite Htok1. simpl negb.
  rewrite Hsaved. simpl negb. cbv iota.
  replace (build_resume _ _ _ _ _ _ _) with (@None Resume.t); [reflexivity |].
  unfold build_resume.
  destruct (Py.truthy (Py.strip (form_get form "bio" "")));
    destruct Hmiss as [-> | ->]; simpl;
    destruct (form_item form "name"); reflexivity.
Qed.

(** When [pic.save] raises, as it does for an upload whose secured name is
    empty, the route answers 500 before any row is built: nothing is stored
    and no token is taken, only the reset of step 1 is committed. *)
Lemma generate_upload_fails (free : list string) (secure : string -> string)
    (save page : string -> bool)
    (st : DB) (uid : Z) (u : User.t) (form : Form) (pic : option string)
    (post : Service) (now_reset now_generated now_insert : Z) :
  users st !! uid = Some u ->
  User.plan u = "free" -> User.tokens u = 3 ->
  form_get form "template" "classic" ∈ free ->
  upload_saved secure save pic = false ->
  generate free secure save page st uid form pic post now_reset now_generated now_insert
  = (save_user (User.reset_tokens_if_needed u now_reset) st,
     mkResponse None (Abort 500)).
Proof.
  intros Hu Hplan Htok Htmpl Hsaved.
  destruct (reset_free_account u now_reset Hplan Htok) as (_ & Htok1 & _).
  unfold generate. rewrite Hu.
  rewrite (bool_decide_eq_true_2 _ Htmpl). simpl negb.
  rewrite Bool.andb_false_l.
  unfold User.has_tokens. rewrite Htok1. simpl negb.
  now rewrite Hsaved.
Qed.

Lemma upload_saved_empty_name (secure : string -> string)
    (save : string -> bool) (filename : string) :
  filename <> "" -> secure filename = "" ->
  upload_saved secure save (Some filename) = false.
Proof.
  intros Hne Hsec. unfold upload_saved.
  apply truthy_true in Hne. now rewrite Hne, Hsec.
Qed.

(** * Further properties of the code *)

(** ** Stripping and splitting *)

Lemma append_cons (c : ascii) (s t : string) :
  String c s +:+ t = String c (s +:+ t).
Proof. reflexivity. Qed.

Lemma append_nil (t : string) : "" +:+ t = t.
Proof. reflexivity. Qed.

Lemma lstrip_unfold (s : string) :
  Py.lstrip s
  = match Py.space_head s with
    | Some rest => Py.lstrip rest
    | None => s
    end.
Proof.
  destruct s as [|c s1]; [reflexivity |].
  cbn [Py.lstrip Py.space_head]. destruct (Py.is_space c); [reflexivity |].
  destruct s1 as [|d s2]; [reflexivity |].
  destruct (Py.is_space2 c d); [reflexivity |].
  destruct s2 as [|e s3]; [reflexivity |].
  now destruct (Py.is_space3 c d e).
Qed.

Lemma space_head_split (s rest : string) :
  Py.space_head s = Some rest ->
  exists pre, pre <> "" /\ s = pre +:+ rest /\
              forall t, Py.space_head (pre +:+ t) = Some t.
Proof.
  destruct s as [|c s1]; [discriminate |]. cbn [Py.space_head].
  destruct (Py.is_space c) eqn:E1.
  { intros [= <-]. exists (String c ""). split; [discriminate |].
    split; [reflexivity |]. intros t.
    rewrite append_cons, append_nil. cbn [Py.space_head]. now rewrite E1. }
  destruct s1 as [|d s2]; [discriminate |].
  destruct (Py.is_space2 c d) eqn:E2.
  { intros [= <-]. exists (String c (String d "")). split; [discriminate |].
    split; [reflexivity |]. intros t.
    rewrite !append_cons, append_nil. cbn [Py.space_head]. now rewrite E1, E2. }
  destruct s2 as [|e s3]; [discriminate |].
  destruct (Py.is_space3 c d e) eqn:E3; [| discriminate].
  intros [= <-]. exists (String c (String d (String e ""))).
  split; [discriminate |]. split; [reflexivity |]. intros t.
  rewrite !append_cons, append_nil. cbn [Py.space_head]. now rewrite E1, E2, E3.
Qed.

Lemma space_head_length (s rest : string) :
  Py.space_head s = Some rest -> (String.length rest < String.length s)%nat.
Proof.
  intros H. apply space_head_split in H as (pre & Hne & -> & _).
  rewrite append_length. destruct pre; [congruence | simpl; lia].
Qed.

Lemma space_head_app (s rest t : string) :
  Py.space_head s = Some rest -> Py.space_head (s +:+ t) = Some (rest +:+ t).
Proof.
  intros H. apply space_head_split in H as (pre & _ & -> & Hpre).
  rewrite append_assoc. apply Hpre.
Qed.

(** Induction on the length of a text. *)
Lemma string_length_ind (P : string -> Prop) :
  (forall s, (forall t, (String.length t < String.length s)%nat -> P t) -> P s) ->
  forall s, P s.
Proof.
  intros H s. remember (String.length s) as n eqn:E. revert s E.
  induction n as [n IH] using lt_wf_ind. intros s ->.
  apply H. intros t Ht. now apply (IH (String.length t)).
Qed.

Lemma lstrip_length (s : string) :
  (String.length (Py.lstrip s) <= String.length s)%nat.
Proof.
  induction s as [s IH] using string_length_ind.
  rewrite lstrip_unfold. destruct (Py.space_head s) as [rest|] eqn:E; [| lia].
  apply space_head_length in E. specialize (IH rest E). lia.
Qed.

(** A text is left as it is by [lstrip] exactly when no white space character
    starts it. *)
Lemma lstrip_fixed (s : string) : Py.lstrip s = s <-> Py.space_head s = None.
Proof.
  split; intros H.
  - destruct (Py.space_head s) as [rest|] eqn:E; [| reflexivity].
    rewrite lstrip_unfold, E in H. apply space_head_length in E.
    pose proof (lstrip_length rest) as Hl. rewrite H in Hl. lia.
  - now rewrite lstrip_unfold, H.
Qed.

Lemma lstrip_idem (s : string) : Py.lstrip (Py.lstrip s) = Py.lstrip s.
Proof.
  induction s as [s IH] using string_length_ind.
  rewrite (lstrip_unfold s). destruct (Py.space_head s) as [rest|] eqn:E.
  - apply IH. now apply space_head_length.
  - now apply lstrip_fixed.
Qed.

Lemma lstrip_suffix (s : string) : exists pre, s = pre +:+ Py.lstrip s.
Proof.
  induction s as [s IH] using string_length_ind.
  rewrite lstrip_unfold. destruct (Py.space_head s) as [rest|] eqn:E.
  - destruct (IH rest (space_head_length _ _ E)) as [pre' Hpre'].
    apply space_head_split in E as (pre & _ & -> & _).
    exists (pre +:+ pre'). rewrite append_assoc. now rewrite <- Hpre'.
  - now exists "".
Qed.

Lemma rstrip_cons (c : ascii) (s : string) :
  Py.rstrip (String c s)
  = if Py.blank (String c (Py.rstrip s)) then "" else String c (Py.rstrip s).
Proof. reflexivity. Qed.

Lemma rstrip_idem (s : string) : Py.rstrip (Py.rstrip s) = Py.rstrip s.
Proof.
  induction s as [|c s IH]; [reflexivity |]. rewrite rstrip_cons.
  destruct (Py.blank (String c (Py.rstrip s))) eqn:E; [reflexivity |].
  now rewrite rstrip_cons, IH, E.
Qed.

Lemma rstrip_prefix (s : string) : exists t, s = Py.rstrip s +:+ t.
Proof.
  induction s as [|c s [t IH]]; [now exists "" |]. rewrite rstrip_cons.
  destruct (Py.blank (String c (Py.rstrip s))).
  - now exists (String c s).
  - exists t. rewrite append_cons. now rewrite <- IH.
Qed.

Lemma strip_idem (s : string) : Py.strip (Py.strip s) = Py.strip s.
Proof.
  unfold Py.strip.
  assert (H : Py.lstrip (Py.rstrip (Py.lstrip s)) = Py.rstrip (Py.lstrip s)).
  { apply lstrip_fixed.
    destruct (Py.space_head (Py.rstrip (Py.lstrip s))) as [rest|] eqn:E;
      [| reflexivity].
    destruct (rstrip_prefix (Py.lstrip s)) as [t Ht].
    apply (space_head_app _ _ t) in E. rewrite <- Ht in E.
    pose proof (proj1 (lstrip_fixed _) (lstrip_idem s)) as Hnone. congruence. }
  rewrite H. apply rstrip_idem.
Qed.

(** White space outside ASCII is stripped too: a bio made of one NO-BREAK
    SPACE (bytes 194 160) and one EM SPACE (bytes 226 128 131) is blank. *)
Example strip_unicode_spaces :
  Py.strip (String "194" (String "160" (String "226" (String "128"
             (String "131" "")))))
  = "" /\
  Py.strip (String "194" (String "160" (String "a" (String "226" (String "128"
             (String "131" ""))))))
  = "a".
Proof. split; reflexivity. Qed.

Lemma split_not_nil (sep : ascii) (s : string) : Py.split sep s <> [].
Proof.
  destruct s as [|c s]; simpl; [discriminate |].
  destruct (Ascii.eqb c sep); [discriminate |].
  destruct (Py.split sep s); discriminate.
Qed.

Lemma split_cons_inv (sep c : ascii) (s : string) :
  Py.split sep (String c s) = [String c s] ->
  Ascii.eqb c sep = false /\ Py.split sep s = [s].
Proof.
  simpl. destruct (Ascii.eqb c sep); [discriminate |].
  destruct (Py.split sep s) as [|h t] eqn:E.
  - now destruct (split_not_nil sep s).
  - intros [= -> ->]. now split.
Qed.

Lemma split_cons (sep c : ascii) (s : string) :
  Ascii.eqb c sep = false -> Py.split sep s = [s] ->
  Py.split sep (String c s) = [String c s].
Proof. intros Hc Hs. simpl. now rewrite Hc, Hs. Qed.

(** The pieces of a split hold no separator. *)
Lemma split_pieces (sep : ascii) (s : string) :
  Forall (fun p => Py.split sep p = [p]) (Py.split sep s).
Proof.
  induction s as [|c s IH]; simpl.
  - now repeat constructor.
  - destruct (Ascii.eqb c sep) eqn:Hc.
    + now constructor.
    + destruct (Py.split sep s) as [|h t] eqn:E;
        [now destruct (split_not_nil sep s) |].
      inversion IH as [|? ? Hh Ht]; subst.
      constructor; [now apply split_cons | exact Ht].
Qed.

Lemma split_app (sep : ascii) (s t : string) :
  Py.split sep s = [s] ->
  Py.split sep (s +:+ String sep t) = s :: Py.split sep t.
Proof.
  induction s as [|c s IH]; intros Hs.
  - change (Py.split sep (String sep t) = "" :: Py.split sep t).
    simpl. now rewrite Ascii.eqb_refl.
  - apply split_cons_inv in Hs as [Hc Hs].
    change (Py.split sep (String c (s +:+ String sep t))
            = String c s :: Py.split sep t).
    simpl. now rewrite Hc, (IH Hs).
Qed.

Lemma split_join (sep : ascii) (l : list string) :
  l <> [] -> Forall (fun p => Py.split sep p = [p]) l ->
  Py.split sep (Py.join (String sep "") l) = l.
Proof.
  intros Hne Hall. induction Hall as [|x l Hx Hl IH]; [congruence |].
  destruct l as [|y l'].
  - exact Hx.
  - change (Py.split sep (x +:+ String sep (Py.join (String sep "") (y :: l')))
            = x :: y :: l').
    rewrite (split_app sep x _ Hx). f_equal. now apply IH.
Qed.

Lemma comma_free_app_l (sep : ascii) (p q : string) :
  Py.split sep (p +:+ q) = [p +:+ q] -> Py.split sep p = [p].
Proof.
  induction p as [|c p IH]; [reflexivity |].
  rewrite append_cons. intros H. apply split_cons_inv in H as [Hc H].
  apply split_cons; [exact Hc | now apply IH].
Qed.

Lemma comma_free_app_r (sep : ascii) (p q : string) :
  Py.split sep (p +:+ q) = [p +:+ q] -> Py.split sep q = [q].
Proof.
  induction p as [|c p IH]; [now rewrite append_nil |].
  rewrite append_cons. intros H. apply split_cons_inv in H as [_ H].
  now apply IH.
Qed.

Lemma lstrip_comma_free (sep : ascii) (s : string) :
  Py.split sep s = [s] -> Py.split sep (Py.lstrip s) = [Py.lstrip s].
Proof.
  intros Hs. destruct (lstrip_suffix s) as [pre Hpre].
  rewrite Hpre in Hs. now apply comma_free_app_r in Hs.
Qed.

Lemma rstrip_comma_free (sep : ascii) (s : string) :
  Py.split sep s = [s] -> Py.split sep (Py.rstrip s) = [Py.rstrip s].
Proof.
  intros Hs. destruct (rstrip_prefix s) as [t Ht].
  rewrite Ht in Hs. now apply comma_free_app_l in Hs.
Qed.

Lemma strip_comma_free (sep : ascii) (s : string) :
  Py.split sep s = [s] -> Py.split sep (Py.strip s) = [Py.strip s].
Proof. intros Hs. now apply rstrip_comma_free, lstrip_comma_free. Qed.

Lemma parse_skills_elem (raw s : string) :
  In s (parse_skills raw) ->
  s <> "" /\ Py.strip s = s /\ Py.split "," s = [s].
Proof.
  unfold parse_skills. intros H.
  apply in_map_iff in H as (p & <- & Hp).
  apply filter_In in Hp as [Hin Ht].
  split; [now apply truthy_true |]. split; [apply strip_idem |].
  apply strip_comma_free.
  pose proof (split_pieces "," raw) as Hall.
  rewrite Forall_forall in Hall. now apply Hall, list_elem_of_In.
Qed.

(** X1: every skill [generate] extracts from the form is non-empty, carries
    no surrounding whitespace and holds no comma. *)
Theorem parse_skills_wellformed (raw : string) :
  Forall (fun s => s <> "" /\ Py.strip s = s /\ Py.split "," s = [s])
         (parse_skills raw).
Proof.
  apply List.Forall_forall. intros s Hs. now apply (parse_skills_elem raw).
Qed.

Lemma build_resume_inv (secure : string -> string) (st : DB) (u : User.t)
    (form : Form) (pic : option string) (post : Service) (now : Z)
    (r : Resume.t) :
  build_resume secure st u form pic post now = Some r ->
  exists name profession,
    form_item form "name" = Some name /\
    form_item form "profession" = Some profession /\
    Resume.id r = next_id (resumes st) /\
    Resume.user_id r = User.id u /\
    Resume.template r = form_get form "template" "classic" /\
    Resume.skills r = Py.join "," (parse_skills (form_get form "skills" "")) /\
    Resume.bio r
    = (if Py.truthy (Py.strip (form_get form "bio" ""))
       then Py.strip (form_get form "bio" "")
       else generate_bio post name profession
              (Py.join ", " (parse_skills (form_get form "skills" "")))).
Proof.
  unfold build_resume.
  destruct (form_item form "name") as [name|];
    destruct (form_item form "profession") as [profession|];
    destruct (Py.truthy (Py.strip (form_get form "bio" ""))); simpl;
    try discriminate; intros [= <-]; exists name, profession; now repeat split.
Qed.

(** X2: the skills [view_resume] shows for a row stored by [generate] are the
    skills [generate] itself rendered, in the same order, as soon as there is
    one; with no skill at all the stored text is empty and the view shows one
    empty skill where [generate] showed none. *)
Theorem view_shows_generated_skills
    (secure : string -> string) (st : DB) (u : User.t) (form : Form)
    (pic : option string) (post : Service) (now : Z) (r : Resume.t)
    (Hr : build_resume secure st u form pic post now = Some r) :
  context_skills r
  = match parse_skills (form_get form "skills" "") with
    | [] => [""]
    | skills => skills
    end.
Proof.
  apply build_resume_inv in Hr as (_ & _ & _ & _ & _ & _ & _ & Hskills & _).
  unfold context_skills. rewrite Hskills.
  assert (Hall : Forall (fun s => s <> "" /\ Py.strip s = s /\
                                  Py.split "," s = [s])
                        (parse_skills (form_get form "skills" ""))).
  { apply List.Forall_forall. intros s Hs.
    now apply (parse_skills_elem (form_get form "skills" "")). }
  destruct (parse_skills (form_get form "skills" "")) as [|x l] eqn:E;
    [reflexivity |].
  rewrite (split_join "," (x :: l)); [| discriminate |].
  - rewrite <- (map_id (x :: l)) at 2. apply map_ext_Forall.
    eapply Forall_impl; [exact Hall |]. now intros s (_ & Hs & _).
  - eapply Forall_impl; [exact Hall |]. now intros s (_ & _ & Hs).
Qed.

Lemma view_shows_generated_skills_witness :
  exists r,
    build_resume (fun s => s) alice_db alice alice_form None terse_service 3
    = Some r /\
    context_skills r = ["Rocq"; "Python"].
Proof.
  eexists. split; [reflexivity |].
  apply (view_shows_generated_skills (fun s => s) alice_db alice alice_form
           None terse_service 3).
  reflexivity.
Defined.

Lemma comma_plain : plain_byte ",".
Proof.
  unfold plain_byte, Py.is_space2, Py.is_space3.
  split; [reflexivity |].
  repeat split; intros;
    repeat match goal with
           | |- context [Ascii.eqb ?a ?b] =>
               destruct (Ascii.eqb a b) eqn:?; try discriminate; simpl
           | |- context [N.leb ?a ?b] => destruct (N.leb a b)
           end; reflexivity.
Qed.

(** [lstrip] never eats into what follows a plain byte. *)
Lemma lstrip_keeps_tail (k : ascii) (t : string) :
  plain_byte k ->
  forall w, exists v, Py.lstrip (w +:+ String k t) = v +:+ String k t.
Proof.
  intros (K1 & K2 & K3 & K4 & K5 & K6) w.
  induction w as [w IH] using string_length_ind.
  assert (Hk : Py.lstrip (String k t) = String k t).
  { apply lstrip_fixed. cbn [Py.space_head]. rewrite K1.
    destruct t as [|d t2]; [reflexivity |]. rewrite K2.
    destruct t2 as [|e t3]; [reflexivity |]. now rewrite K4. }
  destruct w as [|c w1].
  { exists "". now rewrite !append_nil. }
  rewrite append_cons. cbn [Py.lstrip].
  destruct (Py.is_space c).
  { apply IH. simpl. lia. }
  destruct w1 as [|d w2].
  { rewrite append_nil, K3.
    exists (String c ""). rewrite append_cons, append_nil.
    destruct t as [|e t3]; [reflexivity |]. now rewrite K5. }
  rewrite append_cons. destruct (Py.is_space2 c d).
  { apply IH. simpl. lia. }
  destruct w2 as [|e w3].
  { rewrite append_nil, K6. exists (String c (String d "")).
    now rewrite !append_cons, append_nil. }
  rewrite append_cons. destruct (Py.is_space3 c d e).
  { apply IH. simpl. lia. }
  exists (String c (String d (String e w3))). now rewrite !append_cons.
Qed.

Lemma kept_tail_app (x y : string) : kept_tail y -> kept_tail (x +:+ y).
Proof.
  intros [Hy Hb]. split.
  - induction x as [|c x IH]; [exact Hy |].
    rewrite append_cons, rstrip_cons, IH.
    now rewrite <- append_cons, Hb.
  - intros w. rewrite <- append_assoc. apply Hb.
Qed.

Lemma kept_tail_plain (k : ascii) (t : string) :
  plain_byte k -> Py.rstrip (String k t) = String k t -> kept_tail (String k t).
Proof.
  intros Hk Hr. split; [exact Hr |]. intros w.
  destruct (lstrip_keeps_tail k t Hk w) as [v Hv].
  unfold Py.blank. rewrite Hv. now destruct v.
Qed.

Lemma fallback_bio_clean (name profession skills : string) :
  fallback_bio name profession skills <> "" /\
  Py.strip (fallback_bio name profession skills)
  = fallback_bio name profession skills.
Proof.
  split.
  - apply truthy_true. reflexivity.
  - unfold Py.strip.
    replace (Py.lstrip (fallback_bio name profession skills))
      with (fallback_bio name profession skills) by reflexivity.
    unfold fallback_bio.
    apply (kept_tail_app "I'm "), (kept_tail_app name), (kept_tail_app ", a "),
      (kept_tail_app profession), (kept_tail_app " skilled in "),
      (kept_tail_app skills).
    apply kept_tail_plain; [apply comma_plain | reflexivity].
Qed.

(** X3: whatever the service does, [generate_bio] returns a text that is not
    empty and carries no surrounding whitespace. *)
Theorem generate_bio_clean (post : Service) (name profession skills : string) :
  generate_bio post name profession skills <> "" /\
  Py.strip (generate_bio post name profession skills)
  = generate_bio post name profession skills.
Proof.
  destruct (generate_bio_cases post name profession skills)
    as [-> | (text & _ & Hne & ->)].
  - apply fallback_bio_clean.
  - split; [exact Hne | apply strip_idem].
Qed.

(** X4: the bio of a row stored by [generate] is never blank and carries no
    surrounding whitespace, whether it came from the form, from the service or
    from the templated sentence. *)
Theorem stored_bio_clean
    (secure : string -> string) (st : DB) (u : User.t) (form : Form)
    (pic : option string) (post : Service) (now : Z) (r : Resume.t)
    (Hr : build_resume secure st u form pic post now = Some r) :
  Resume.bio r <> "" /\ Py.strip (Resume.bio r) = Resume.bio r.
Proof.
  apply build_resume_inv in Hr
    as (name & profession & _ & _ & _ & _ & _ & _ & Hbio).
  rewrite Hbio.
  destruct (Py.truthy (Py.strip (form_get form "bio" ""))) eqn:Hgiven.
  - split; [now apply truthy_true | apply strip_idem].
  - destruct (generate_bio_cases post name profession
                (Py.join ", " (parse_skills (form_get form "skills" ""))))
      as [-> | (text & _ & Hne & ->)].
    + apply fallback_bio_clean.
    + split; [exact Hne | apply strip_idem].
Qed.

Lemma stored_bio_clean_witness :
  exists r,
    build_resume (fun s => s) alice_db alice alice_form None terse_service 3
    = Some r /\
    Resume.bio r <> "" /\ Py.strip (Resume.bio r) = Resume.bio r.
Proof.
  eexists. split; [reflexivity |].
  apply (stored_bio_clean (fun s => s) alice_db alice alice_form None
           terse_service 3).
  reflexivity.
Defined.

(** ** The gates of the generation workflow *)

Lemma reset_keeps_identity (u : User.t) (now : Z) :
  User.id (User.reset_tokens_if_needed u now) = User.id u /\
  User.plan (User.reset_tokens_if_needed u now) = User.plan u /\
  User.email (User.reset_tokens_if_needed u now) = User.email u /\
  User.username (User.reset_tokens_if_needed u now) = User.username u.
Proof.
  unfold User.reset_tokens_if_needed. repeat case_match; simpl; auto.
Qed.

Lemma save_user_id (u : User.t) (st : DB) :
  users st !! User.id u = Some u -> save_user u st = st.
Proof.
  intros H. destruct st as [us rs ps]. unfold save_user. simpl in *.
  now rewrite (insert_id _ _ _ H).
Qed.

(** What [generate] does once both gates are passed and the row is built. *)
Lemma generate_passes (free : list string) (secure : string -> string)
    (save page : string -> bool)
    (st : DB) (uid : Z) (u : User.t) (form : Form) (pic : option string)
    (post : Service) (now_reset now_generated now_insert : Z) (r : Resume.t) :
  users st !! uid = Some u ->
  form_get form "template" "classic" ∈ free \/
    User.plan u = "pro" \/ User.plan u = "ultimate" ->
  User.has_tokens (User.reset_tokens_if_needed u now_reset) = true ->
  upload_saved secure save pic = true ->
  build_resume secure (save_user (User.reset_tokens_if_needed u now_reset) st)
               (User.reset_tokens_if_needed u now_reset) form pic post now_insert
  = Some r ->
  generate free secure save page st uid form pic post now_reset now_generated now_insert
  = (mkDB (<[User.id u :=
               User.set_last_generated (Some now_generated)
                 (User.deduct_token (User.reset_tokens_if_needed u now_reset))]>
             (users st))
          (<[next_id (resumes st) := r]> (resumes st))
          (purchases st),
     flash "Resume generated successfully!" "success"
           (if page ("resume_" +:+ form_get form "template" "classic" +:+ ".html")
            then Render ("resume_" +:+ form_get form "template" "classic"
                         +:+ ".html")
            else Abort 500)).
Proof.
  intros Hu Hgate Htok Hsaved Hbuild.
  destruct (reset_keeps_identity u now_reset) as (Hid & Hplan & _).
  unfold generate. rewrite Hu.
  set (u1 := User.reset_tokens_if_needed u now_reset) in *.
  replace (negb (bool_decide (form_get form "template" "classic" ∈ free)) &&
           negb (User.is_pro_user u1 || User.is_ultimate_user u1)) with false.
  2:{ symmetry. unfold User.is_pro_user, User.is_ultimate_user. rewrite Hplan.
      destruct Hgate as [H | [H | H]].
      - now rewrite (bool_decide_eq_true_2 _ H).
      - rewrite (bool_decide_eq_true_2 _ H). apply Bool.andb_false_r.
      - rewrite (bool_decide_eq_true_2 (User.plan u = "ultimate") H).
        rewrite Bool.orb_true_r. apply Bool.andb_false_r. }
  rewrite Htok, Hsaved. simpl negb. cbv iota. rewrite Hbuild.
  apply build_resume_inv in Hbuild as (_ & _ & _ & _ & Hrid & _).
  unfold save_user, add_resume. simpl in *.
  replace (User.id (User.deduct_token u1)) with (User.id u).
  2:{ unfold User.deduct_token. case_match; simpl; congruence. }
  rewrite Hid, Hrid. now rewrite insert_insert_eq.
Qed.

(** X5: an account that is neither pro nor ultimate asking for a template
    outside [FREE_TEMPLATES] is sent to the pricing page with the
    premium-template message; no resume is stored and no token is taken:
    only the daily reset of step 1 is committed. *)
Theorem generate_premium_rejected
    (free : list string) (secure : string -> string)
    (save page : string -> bool) (st : DB) (uid : Z)
    (u : User.t) (form : Form) (pic : option string) (post : Service)
    (now_reset now_generated now_insert : Z)
    (Hu : users st !! uid = Some u)
    (Hpremium : form_get form "template" "classic" ∉ free)
    (Hpro : User.plan u <> "pro") (Hult : User.plan u <> "ultimate") :
  generate free secure save page st uid form pic post now_reset now_generated now_insert
  = (mkDB (<[User.id u := User.reset_tokens_if_needed u now_reset]> (users st))
          (resumes st) (purchases st),
     flash "This template is only available for Pro or Ultimate users." "error"
           (Redirect "pricing")).
Proof.
  destruct (reset_keeps_identity u now_reset) as (Hid & Hplan & _).
  unfold generate. rewrite Hu.
  unfold User.is_pro_user, User.is_ultimate_user. rewrite Hplan.
  rewrite (bool_decide_eq_false_2 _ Hpremium).
  rewrite (bool_decide_eq_false_2 _ Hpro), (bool_decide_eq_false_2 _ Hult).
  simpl. unfold save_user. now rewrite Hid.
Qed.

Lemma generate_premium_rejected_witness :
  generate ["classic"] (fun s => s) (fun _ => true) (fun _ => true) alice_db 1
           (("template", "gold") :: alice_form) None terse_service 1 2 3
  = (alice_db,
     flash "This template is only available for Pro or Ultimate users." "error"
           (Redirect "pricing")).
Proof.
  rewrite (generate_premium_rejected ["classic"] (fun s => s) (fun _ => true) (fun _ => true) alice_db 1 alice
             (("template", "gold") :: alice_form) None terse_service 1 2 3
             eq_refl).
  - reflexivity.
  - intros H. apply list_elem_of_In in H. simpl in H.
    destruct H as [H | []]. discriminate H.
  - discriminate.
  - discriminate.
Defined.

(** X6: an account off the ultimate plan with no token left, asking less than
    a day after its last reset for a template it may use, is sent to the
    pricing page with the out-of-tokens message, and the database is exactly
    as before. *)
Theorem generate_out_of_tokens
    (free : list string) (secure : string -> string)
    (save page : string -> bool) (st : DB) (uid : Z)
    (u : User.t) (form : Form) (pic : option string) (post : Service)
    (now_reset now_generated now_insert last : Z)
    (Hu : users st !! uid = Some u) (Hid : User.id u = uid)
    (Hult : User.plan u <> "ultimate")
    (Hempty : User.tokens u <= 0)
    (Hlast : User.last_token_reset u = Some last)
    (Hsoon : now_reset - last < day)
    (Hgate : form_get form "template" "classic" ∈ free \/ User.plan u = "pro") :
  generate free secure save page st uid form pic post now_reset now_generated now_insert
  = (st, flash "You're out of tokens. Please buy more or wait for your daily reset."
               "error" (Redirect "pricing")).
Proof.
  assert (Hreset : User.reset_tokens_if_needed u now_reset = u).
  { unfold User.reset_tokens_if_needed.
    replace (User.reset_due u now_reset) with false; [reflexivity |].
    symmetry. apply reset_due_false. now exists last. }
  unfold generate. rewrite Hu, Hreset.
  replace (negb (bool_decide (form_get form "template" "classic" ∈ free)) &&
           negb (User.is_pro_user u || User.is_ultimate_user u)) with false.
  2:{ symmetry. unfold User.is_pro_user. destruct Hgate as [H | H].
      - now rewrite (bool_decide_eq_true_2 _ H).
      - rewrite (bool_decide_eq_true_2 _ H). apply Bool.andb_false_r. }
  unfold User.has_tokens, User.is_ultimate_user.
  rewrite (bool_decide_eq_false_2 _ Hult).
  replace (0 <? User.tokens u) with false by (symmetry; apply Z.ltb_ge; lia).
  simpl. rewrite save_user_id; [reflexivity | now rewrite Hid].
Qed.

Lemma generate_out_of_tokens_witness :
  generate ["classic"] (fun s => s) (fun _ => true) (fun _ => true) (mkDB {[1 := User.set_tokens 0 alice]} ∅ ∅) 1
           alice_form None terse_service 1 2 3
  = (mkDB {[1 := User.set_tokens 0 alice]} ∅ ∅,
     flash "You're out of tokens. Please buy more or wait for your daily reset."
           "error" (Redirect "pricing")).
Proof.
  apply (generate_out_of_tokens ["classic"] (fun s => s) (fun _ => true) (fun _ => true)
           (mkDB {[1 := User.set_tokens 0 alice]} ∅ ∅) 1
           (User.set_tokens 0 alice) alice_form None terse_service 1 2 3 0);
    try reflexivity.
  - discriminate.
  - left. apply list_elem_of_here.
Defined.

(** X7: a free or pro account whose last reset is a day old (or missing) is
    never out of tokens. With a template it may use, a form carrying [name]
    and [profession], and an upload, if any, that is saved, the resume is
    stored whatever the balance was, and the account is left with 2 tokens on
    the free plan and 14 on the pro plan, stamped with the time of the reset;
    the answer is the rendered resume when the template's page exists and a
    500 after the commit when it does not. *)
Theorem generate_after_a_day
    (free : list string) (secure : string -> string)
    (save page : string -> bool) (st : DB) (uid : Z)
    (u : User.t) (form : Form) (pic : option string) (post : Service)
    (now_reset now_generated now_insert : Z) (name profession : string)
    (Hu : users st !! uid = Some u)
    (Hplan : User.plan u = "free" \/ User.plan u = "pro")
    (Hdue : User.last_token_reset u = None \/
            exists last, User.last_token_reset u = Some last /\
                         day <= now_reset - last)
    (Hgate : form_get form "template" "classic" ∈ free \/ User.plan u = "pro")
    (Hname : form_item form "name" = Some name)
    (Hprofession : form_item form "profession" = Some profession)
    (Hsaved : upload_saved secure save pic = true) :
  exists (u' : User.t) (r : Resume.t),
    generate free secure save page st uid form pic post now_reset now_generated now_insert
    = (mkDB (<[User.id u := u']> (users st))
            (<[next_id (resumes st) := r]> (resumes st))
            (purchases st),
       flash "Resume generated successfully!" "success"
             (if page ("resume_" +:+ form_get form "template" "classic" +:+ ".html")
              then Render ("resume_" +:+ form_get form "template" "classic"
                           +:+ ".html")
              else Abort 500)) /\
    User.tokens u' = (if bool_decide (User.plan u = "free") then 2 else 14) /\
    User.last_token_reset u' = Some now_reset /\
    User.plan u' = User.plan u /\
    Resume.user_id r = User.id u.
Proof.
  apply reset_due_true in Hdue.
  destruct (reset_when_due u now_reset Hdue) as (Heq & Hfree & Hpro & _).
  destruct (reset_keeps_identity u now_reset) as (Hid & Hplan1 & _).
  set (u1 := User.reset_tokens_if_needed u now_reset) in *.
  assert (Htok : User.tokens u1 = if bool_decide (User.plan u = "free") then 3 else 15).
  { destruct Hplan as [H | H].
    - rewrite (bool_decide_eq_true_2 _ H). now apply Hfree.
    - rewrite bool_decide_eq_false_2 by (rewrite H; discriminate). now apply Hpro. }
  assert (Hult : User.is_ultimate_user u1 = false).
  { apply is_ultimate_user_false. rewrite Hplan1.
    destruct Hplan as [-> | ->]; discriminate. }
  destruct (build_resume_ok secure (save_user u1 st) u1 form pic post now_insert
              name profession Hname Hprofession)
    as (r & Hbuild & _ & Hruid & _).
  exists (User.set_last_generated (Some now_generated) (User.deduct_token u1)), r.
  split.
  - apply generate_passes; [exact Hu | tauto | | exact Hsaved | exact Hbuild].
    unfold User.has_tokens. fold u1. rewrite Htok. now case_bool_decide.
  - unfold User.deduct_token. rewrite Hult. simpl.
    rewrite Htok, Hplan1, Hruid, Hid.
    split; [now case_bool_decide |]. split; [now rewrite Heq |]. now split.
Qed.

Lemma generate_after_a_day_witness :
  exists u' r,
    generate ["classic"] (fun s => s) (fun _ => true) (fun _ => true)
             (mkDB {[1 := unstamped]} ∅ ∅) 1 alice_form (Some "me.png")
             terse_service 1 2 3
    = (mkDB {[1 := u']} {[1 := r]} ∅,
       flash "Resume generated successfully!" "success"
             (Render "resume_classic.html")) /\
    User.tokens unstamped = 0 /\ User.tokens u' = 2 /\
    User.last_token_reset u' = Some 1.
Proof.
  assert (Hu : users (mkDB {[1 := unstamped]} ∅ ∅) !! 1 = Some unstamped)
    by reflexivity.
  assert (Hplan : User.plan unstamped = "free" \/ User.plan unstamped = "pro")
    by (left; reflexivity).
  assert (Hdue : User.last_token_reset unstamped = None \/
                 exists last, User.last_token_reset unstamped = Some last /\
                              day <= 1 - last)
    by (left; reflexivity).
  assert (Hgate : form_get alice_form "template" "classic" ∈ ["classic"] \/
                  User.plan unstamped = "pro")
    by (left; apply list_elem_of_here).
  destruct (generate_after_a_day ["classic"] (fun s => s) (fun _ => true)
              (fun _ => true) (mkDB {[1 := unstamped]} ∅ ∅) 1 unstamped
              alice_form (Some "me.png") terse_service 1 2 3 "Alice" "designer"
              Hu Hplan Hdue Hgate eq_refl eq_refl eq_refl)
    as (u' & r & E & Htok & Hstamp & _).
  exists u', r. rewrite E. split.
  - simpl. now rewrite insert_singleton_eq, insert_empty.
  - split; [reflexivity |]. split; [exact Htok | exact Hstamp].
Defined.

(** X8: an ultimate account is never charged, and neither the balance nor
    the template gate ever refuses it. Whatever its balance (zero included)
    and whatever the template, a form carrying [name] and [profession], with
    an upload, if any, that is saved, gets its resume stored, and the balance
    and the plan are left as they were; the answer is the rendered resume
    when the template's page exists and a 500 after the commit when it does
    not. *)
Theorem generate_ultimate
    (free : list string) (secure : string -> string)
    (save page : string -> bool) (st : DB) (uid : Z)
    (u : User.t) (form : Form) (pic : option string) (post : Service)
    (now_reset now_generated now_insert : Z) (name profession : string)
    (Hu : users st !! uid = Some u)
    (Hplan : User.plan u = "ultimate")
    (Hname : form_item form "name" = Some name)
    (Hprofession : form_item form "profession" = Some profession)
    (Hsaved : upload_saved secure save pic = true) :
  exists (u' : User.t) (r : Resume.t),
    generate free secure save page st uid form pic post now_reset now_generated now_insert
    = (mkDB (<[User.id u := u']> (users st))
            (<[next_id (resumes st) := r]> (resumes st))
            (purchases st),
       flash "Resume generated successfully!" "success"
             (if page ("resume_" +:+ form_get form "template" "classic" +:+ ".html")
              then Render ("resume_" +:+ form_get form "template" "classic"
                           +:+ ".html")
              else Abort 500)) /\
    User.tokens u' = User.tokens u /\
    User.plan u' = "ultimate" /\
    Resume.user_id r = User.id u /\
    Resume.template r = form_get form "template" "classic".
Proof.
  destruct (reset_keeps_identity u now_reset) as (Hid & Hplan1 & _).
  assert (Htok : User.tokens (User.reset_tokens_if_needed u now_reset)
                 = User.tokens u).
  { unfold User.reset_tokens_if_needed, User.is_free_user, User.is_pro_user.
    rewrite !bool_decide_eq_false_2 by (rewrite Hplan; discriminate).
    now destruct (User.reset_due u now_reset). }
  set (u1 := User.reset_tokens_if_needed u now_reset) in *.
  assert (Hult : User.is_ultimate_user u1 = true).
  { apply is_ultimate_user_true. now rewrite Hplan1. }
  destruct (build_resume_ok secure (save_user u1 st) u1 form pic post now_insert
              name profession Hname Hprofession)
    as (r & Hbuild & _ & Hruid & _ & _ & Htmpl & _).
  exists (User.set_last_generated (Some now_generated) (User.deduct_token u1)), r.
  split.
  - apply generate_passes; [exact Hu | tauto | | exact Hsaved | exact Hbuild].
    unfold User.has_tokens. fold u1. rewrite Hult. apply Bool.orb_true_r.
  - unfold User.deduct_token. rewrite Hult. simpl.
    rewrite Htok, Hplan1, Hruid, Hid. now repeat split.
Qed.

Lemma generate_ultimate_witness :
  (exists u' r,
     generate ["classic"] (fun s => s) (fun _ => true) (fun _ => true)
              (mkDB {[1 := vip]} ∅ ∅) 1
              (("template", "gold") :: alice_form) None terse_service 1 2 3
     = (mkDB {[1 := u']} {[1 := r]} ∅,
        flash "Resume generated successfully!" "success"
              (Render "resume_gold.html")) /\
     User.tokens vip = 0 /\ User.tokens u' = 0 /\ Resume.template r = "gold") /\
  (exists u' r,
     generate ["classic"] (fun s => s) (fun _ => true) (fun _ => false)
              (mkDB {[1 := vip]} ∅ ∅) 1
              (("template", "gold") :: alice_form) None terse_service 1 2 3
     = (mkDB {[1 := u']} {[1 := r]} ∅,
        flash "Resume generated successfully!" "success" (Abort 500))).
Proof.
  assert (Hu : users (mkDB {[1 := vip]} ∅ ∅) !! 1 = Some vip) by reflexivity.
  assert (Hplan : User.plan vip = "ultimate") by reflexivity.
  assert (Hname : form_item (("template", "gold") :: alice_form) "name"
                  = Some "Alice") by reflexivity.
  assert (Hprof : form_item (("template", "gold") :: alice_form) "profession"
                  = Some "designer") by reflexivity.
  split.
  - destruct (generate_ultimate ["classic"] (fun s => s) (fun _ => true)
                (fun _ => true) (mkDB {[1 := vip]} ∅ ∅) 1
                vip (("template", "gold") :: alice_form) None terse_service 1 2 3
                "Alice" "designer" Hu Hplan Hname Hprof eq_refl)
      as (u' & r & E & Htok & _ & _ & Htmpl).
    exists u', r. rewrite E. split.
    + simpl. now rewrite insert_singleton_eq, insert_empty.
    + split; [reflexivity |]. split; [exact Htok | exact Htmpl].
  - destruct (generate_ultimate ["classic"] (fun s => s) (fun _ => true)
                (fun _ => false) (mkDB {[1 := vip]} ∅ ∅) 1
                vip (("template", "gold") :: alice_form) None terse_service 1 2 3
                "Alice" "designer" Hu Hplan Hname Hprof eq_refl)
      as (u' & r & E & _).
    exists u', r. rewrite E. simpl.
    now rewrite insert_singleton_eq, insert_empty.
Defined.

(** X9: [generate] only ever adds. Whatever the request and its outcome,
    every resume already stored is still there unchanged, the ledger is
    untouched, and so is every account other than the caller's. *)
Theorem generate_keeps_rows
    (free : list string) (secure : string -> string)
    (save page : string -> bool) (st : DB) (uid : Z)
    (form : Form) (pic : option string) (post : Service)
    (now_reset now_generated now_insert : Z) :
  keeps (resumes st)
        (resumes (generate free secure save page st uid form pic post
                           now_reset now_generated now_insert).1) /\
  purchases (generate free secure save page st uid form pic post
                      now_reset now_generated now_insert).1
  = purchases st /\
  forall k, (forall u, users st !! uid = Some u -> k <> User.id u) ->
    users (generate free secure save page st uid form pic post
                    now_reset now_generated now_insert).1 !! k
    = users st !! k.
Proof.
  unfold generate.
  destruct (users st !! uid) as [u|] eqn:Hu; [| now repeat split].
  destruct (reset_keeps_identity u now_reset) as (Hid & _).
  set (u1 := User.reset_tokens_if_needed u now_reset) in *.
  assert (Hother : forall k, (forall v, Some u = Some v -> k <> User.id v) ->
                             k <> User.id u) by (intros k H; now apply H).
  assert (Hd : User.id (User.deduct_token u1) = User.id u).
  { unfold User.deduct_token. case_match; simpl; congruence. }
  destruct (_ && _);
    [| destruct (negb (User.has_tokens u1));
       [| destruct (negb (upload_saved secure save pic))]];
    try (split; [now intros k x H | split; [reflexivity |]];
         intros k Hk; simpl; rewrite Hid;
         now rewrite lookup_insert_ne by (apply not_eq_sym, Hother, Hk)).
  destruct (build_resume _ _ _ _ _ _ _) as [r|] eqn:Hbuild.
  - apply build_resume_inv in Hbuild as (_ & _ & _ & _ & Hrid & _).
    simpl in Hrid. split; [| split; [reflexivity |]].
    + intros k x H. simpl. rewrite Hrid.
      rewrite lookup_insert_ne; [exact H |].
      intros <-. now rewrite next_id_fresh in H.
    + intros k Hk. simpl. rewrite Hd, Hid.
      now rewrite !lookup_insert_ne by (apply not_eq_sym, Hother, Hk).
  - split; [now intros k x H | split; [reflexivity |]].
    intros k Hk. simpl. rewrite Hid.
    now rewrite lookup_insert_ne by (apply not_eq_sym, Hother, Hk).
Qed.

(** ** Ownership of stored resumes *)

Lemma owned_resume_Some (st : DB) (u : User.t) (resume_id : Z) (r : Resume.t) :
  owned_resume st u resume_id = Some r <->
  resumes st !! resume_id = Some r /\ Resume.user_id r = User.id u.
Proof.
  unfold owned_resume. destruct (resumes st !! resume_id) as [x|].
  - destruct (Resume.user_id x =? User.id u) eqn:E.
    + apply Z.eqb_eq in E. split; [intros [= <-] | intros [[= <-] _]]; auto.
    + apply Z.eqb_neq in E. split; [discriminate | intros [[= <-] H]]; tauto.
  - split; [discriminate | now intros [? _]].
Qed.

Lemma owned_resume_foreign (st : DB) (u : User.t) (resume_id : Z) (r : Resume.t) :
  resumes st !! resume_id = Some r -> Resume.user_id r <> User.id u ->
  owned_resume st u resume_id = None.
Proof.
  intros Hr Hne. destruct (owned_resume st u resume_id) as [x|] eqn:E;
    [| reflexivity].
  apply owned_resume_Some in E as [E1 E2]. congruence.
Qed.

Lemma my_resumes_rows_elem (st : DB) (u : User.t) (r : Resume.t) :
  r ∈ my_resumes_rows st u <->
  (exists k, resumes st !! k = Some r) /\ Resume.user_id r = User.id u.
Proof.
  unfold my_resumes_rows.
  rewrite merge_sort_Permutation, list_elem_of_In, filter_In, Z.eqb_eq, in_map_iff.
  split.
  - intros [([k x] & <- & Hin) Hown]. split; [| exact Hown].
    exists k. now apply elem_of_map_to_list, list_elem_of_In.
  - intros [(k & Hk) Hown]. split; [| exact Hown].
    exists (k, r). split; [reflexivity |].
    now apply list_elem_of_In, elem_of_map_to_list.
Qed.

(** X10: a resume that belongs to another account is out of reach of every
    route that takes a resume id: viewing and editing (copying included)
    answer 404, downloading answers "Access denied." and writes no file, the
    database is unchanged, and the row is not in the caller's list. *)
Theorem foreign_resume_out_of_reach
    (secure : string -> string) (save page : string -> bool)
    (render : string -> Resume.t -> string)
    (fs : gmap string string) (st : DB) (uid : Z) (u : User.t) (resume_id : Z)
    (r : Resume.t) (method : Method) (duplicate : bool) (form : Form)
    (pic : option string) (now : Z)
    (Hu : users st !! uid = Some u)
    (Hr : resumes st !! resume_id = Some r)
    (Hne : Resume.user_id r <> User.id u) :
  view_resume page st uid resume_id = mkResponse None (Abort 404) /\
  edit_resume secure save st uid resume_id method duplicate form pic now
  = (st, mkResponse None (Abort 404)) /\
  download_resume render page fs st uid resume_id
  = (fs, inl (flash "Access denied." "error" (Redirect "my_resumes"))) /\
  r ∉ (my_resumes st uid).2.
Proof.
  pose proof (owned_resume_foreign st u resume_id r Hr Hne) as Hown.
  repeat split.
  - unfold view_resume. now rewrite Hu, Hown.
  - unfold edit_resume. now rewrite Hu, Hown.
  - unfold download_resume. rewrite Hu, Hr.
    apply Z.eqb_neq in Hne. now rewrite Hne.
  - unfold my_resumes. rewrite Hu. simpl.
    rewrite my_resumes_rows_elem. tauto.
Qed.

Lemma foreign_resume_out_of_reach_witness :
  view_resume (fun _ => true) shared_db 1 1 = mkResponse None (Abort 404) /\
  edit_resume (fun s => s) (fun _ => true) shared_db 1 1 GET true [] None 9
  = (shared_db, mkResponse None (Abort 404)) /\
  bobs_resume ∉ (my_resumes shared_db 1).2.
Proof.
  assert (Hne : Resume.user_id bobs_resume <> User.id alice) by (simpl; lia).
  destruct (foreign_resume_out_of_reach (fun s => s) (fun _ => true)
              (fun _ => true) (fun _ _ => "") ∅
              shared_db 1 alice 1 bobs_resume GET true [] None 9
              eq_refl eq_refl Hne) as (Hv & He & _ & Hl).
  split; [exact Hv |]. split; [exact He | exact Hl].
Defined.

Lemma newer_first_total : Total newer_first.
Proof. intros r1 r2. unfold newer_first. lia. Qed.

Lemma newer_first_trans : Transitive newer_first.
Proof. intros r1 r2 r3. unfold newer_first. lia. Qed.

(** X11: the list of [my_resumes] holds exactly the caller's resumes, each
    stored row once, newest first. *)
Theorem my_resumes_lists_own (st : DB) (uid : Z) (u : User.t)
    (Hu : users st !! uid = Some u) :
  (my_resumes st uid).1 = mkResponse None (Render "my_resumes.html") /\
  (forall r, r ∈ (my_resumes st uid).2 <->
             (exists k, resumes st !! k = Some r) /\
             Resume.user_id r = User.id u) /\
  (my_resumes st uid).2
  ≡ₚ List.filter (fun r => Resume.user_id r =? User.id u)
                 (map snd (map_to_list (resumes st))) /\
  StronglySorted newer_first (my_resumes st uid).2.
Proof.
  unfold my_resumes. rewrite Hu. simpl.
  split; [reflexivity |]. split; [apply my_resumes_rows_elem |].
  split; [apply merge_sort_Permutation |].
  apply StronglySorted_merge_sort;
    [apply newer_first_trans | apply newer_first_total].
Qed.

Lemma my_resumes_lists_own_witness :
  (my_resumes portfolio_db 1).2 = [alices_later_resume; alices_resume] /\
(bobs_resume ∉ (my_resumes portfolio_db 1).2) /\
  StronglySorted newer_first (my_resumes portfolio_db 1).2.
Proof.
  assert (Hu : users portfolio_db !! 1 = Some alice) by reflexivity.
  destruct (my_resumes_lists_own portfolio_db 1 alice Hu)
    as (_ & Hin & _ & Hsorted).
  split; [now vm_compute |].
  split; [| exact Hsorted].
  intros H. apply Hin in H as [_ Hown]. discriminate Hown.
Defined.

(** ** Editing, copying, deleting and downloading one's own resume *)

(** X12: saving an edit of one's own resume, with an upload, if any, that
    is saved, takes no token and asks for no plan: accounts and ledger are
    untouched, and the template of the form is stored as it is, premium or
    not. The row keeps its key, id, owner and creation time, no row is added
    or removed, and bio and skills are stored exactly as typed, blank bio
    included. An upload that cannot be saved ends the request in a 500 that
    changes nothing. *)
Theorem edit_resume_saves
    (secure : string -> string) (save : string -> bool)
    (st : DB) (uid : Z) (u : User.t)
    (resume_id : Z) (original : Resume.t) (form : Form) (pic : option string)
    (now : Z) (name profession : string)
    (Hu : users st !! uid = Some u)
    (Hr : resumes st !! resume_id = Some original)
    (Hown : Resume.user_id original = User.id u)
    (Hname : form_item form "name" = Some name)
    (Hprofession : form_item form "profession" = Some profession) :
  (upload_saved secure save pic = false ->
   edit_resume secure save st uid resume_id POST false form pic now
   = (st, mkResponse None (Abort 500))) /\
  (upload_saved secure save pic = true ->
  exists r : Resume.t,
    edit_resume secure save st uid resume_id POST false form pic now
    = (mkDB (users st) (<[resume_id := r]> (resumes st)) (purchases st),
       flash "Resume updated successfully!" "success" (Redirect "my_resumes")) /\
    dom (<[resume_id := r]> (resumes st)) = dom (resumes st) /\
    Resume.id r = Resume.id original /\
    Resume.user_id r = Resume.user_id original /\
    Resume.timestamp r = Resume.timestamp original /\
    Resume.name r = name /\
    Resume.template r = form_get form "template" "classic" /\
    Resume.bio r = form_get form "bio" "" /\
    Resume.skills r = form_get form "skills" "").
Proof.
  assert (Ho : owned_resume st u resume_id = Some original)
    by now apply owned_resume_Some.
  unfold edit_resume, edited. rewrite Hu, Ho, Hname, Hprofession. simpl.
  split; intros ->; simpl; [reflexivity |].
  eexists. split; [reflexivity |].
  split; [apply dom_insert_lookup_L; now rewrite Hr |].
  now repeat split.
Qed.

Lemma edit_resume_saves_witness :
  (exists r,
     edit_resume (fun s => s) (fun _ => true) spent_db 1 4 POST false
                 [("name", "Alice"); ("profession", "designer"); ("template", "gold")]
                 (Some "me.png") 9
     = (mkDB (users spent_db) {[4 := r]} ∅,
        flash "Resume updated successfully!" "success" (Redirect "my_resumes")) /\
     Resume.template r = "gold" /\ Resume.bio r = "") /\
  edit_resume (fun s => s) (fun _ => false) spent_db 1 4 POST false
              [("name", "Alice"); ("profession", "designer"); ("template", "gold")]
              (Some "me.png") 9
  = (spent_db, mkResponse None (Abort 500)).
Proof.
  assert (Hu : users spent_db !! 1 = Some (User.set_tokens 0 alice))
    by reflexivity.
  assert (Hr : resumes spent_db !! 4 = Some alices_resume) by reflexivity.
  split.
  - destruct (edit_resume_saves (fun s => s) (fun _ => true) spent_db 1
                (User.set_tokens 0 alice) 4 alices_resume
                [("name", "Alice"); ("profession", "designer"); ("template", "gold")]
                (Some "me.png") 9 "Alice" "designer" Hu Hr eq_refl eq_refl eq_refl)
      as [_ H].
    destruct (H eq_refl) as (r & E & _ & _ & _ & _ & _ & Htmpl & Hbio & _).
    exists r. rewrite E. split.
    + simpl. now rewrite insert_singleton_eq.
    + split; [exact Htmpl | exact Hbio].
  - now apply (edit_resume_saves (fun s => s) (fun _ => false) spent_db 1
                 (User.set_tokens 0 alice) 4 alices_resume
                 [("name", "Alice"); ("profession", "designer"); ("template", "gold")]
                 (Some "me.png") 9 "Alice" "designer" Hu Hr eq_refl eq_refl eq_refl).
Defined.

(** X13: copying one's own resume ([?duplicate=1]) stores a second row under
    a fresh key, owned by the caller and stamped with the time of the copy,
    in which every one of the fifteen content columns is the original's, and
    keeps the original. It does so on GET as on POST, reads neither the form
    nor an upload, and takes no token: accounts and ledger are untouched. *)
Theorem edit_resume_copies
    (secure : string -> string) (save : string -> bool)
    (st : DB) (uid : Z) (u : User.t)
    (resume_id : Z) (original : Resume.t) (method : Method) (form : Form)
    (pic : option string) (now : Z)
    (Hu : users st !! uid = Some u)
    (Hr : resumes st !! resume_id = Some original)
    (Hown : Resume.user_id original = User.id u) :
  exists copy : Resume.t,
    edit_resume secure save st uid resume_id method true form pic now
    = (mkDB (users st) (<[next_id (resumes st) := copy]> (resumes st))
            (purchases st),
       flash "Resume duplicated. You can now edit it." "info"
             (Redirect "edit_resume")) /\
    resumes st !! next_id (resumes st) = None /\
    (<[next_id (resumes st) := copy]> (resumes st)) !! resume_id = Some original /\
    size (<[next_id (resumes st) := copy]> (resumes st)) = S (size (resumes st)) /\
    Resume.user_id copy = User.id u /\
    Resume.timestamp copy = now /\
    (Resume.name copy, Resume.profession copy, Resume.bio copy,
     Resume.skills copy, Resume.template copy, Resume.profile_pic_url copy)
    = (Resume.name original, Resume.profession original, Resume.bio original,
       Resume.skills original, Resume.template original,
       Resume.profile_pic_url original) /\
    copy = Resume.mk (next_id (resumes st)) (User.id u)
             (Resume.name original) (Resume.profession original)
             (Resume.email original) (Resume.phone original)
             (Resume.linkedin original) (Resume.bio original)
             (Resume.skills original) (Resume.job_title original)
             (Resume.company original) (Resume.job_desc original)
             (Resume.degree original) (Resume.institute original)
             (Resume.grad_year original) (Resume.profile_pic_url original)
             (Resume.template original) now.
Proof.
  assert (Ho : owned_resume st u resume_id = Some original)
    by now apply owned_resume_Some.
  pose proof (next_id_fresh (resumes st)) as Hfresh.
  exists (duplicate_of st u original now).
  split; [unfold edit_resume; now rewrite Hu, Ho |].
  split; [exact Hfresh |]. split.
  { rewrite lookup_insert_ne; [exact Hr |]. intros E. rewrite E in Hfresh.
    congruence. }
  split; [now apply map_size_insert_None |].
  now repeat split.
Qed.

Lemma edit_resume_copies_witness :
  (edit_resume (fun s => s) (fun _ => false) spent_db 1 4 GET true
               [("name", "Eve")] (Some "me.png") 9).1
  = mkDB (users spent_db)
         (<[5 := Resume.mk 5 1 "Alice Doe" "designer" "alice@example.org" "" ""
                           "I'm Alice." "Rocq,Python" "" "" "" "" "" "" None
                           "classic" 9]> {[4 := alices_resume]}) ∅ /\
  User.tokens <$> users spent_db !! 1 = Some 0.
Proof.
  assert (Hu : users spent_db !! 1 = Some (User.set_tokens 0 alice))
    by reflexivity.
  assert (Hr : resumes spent_db !! 4 = Some alices_resume) by reflexivity.
  destruct (edit_resume_copies (fun s => s) (fun _ => false) spent_db 1
              (User.set_tokens 0 alice) 4 alices_resume GET [("name", "Eve")]
              (Some "me.png") 9 Hu Hr eq_refl)
    as (copy & E & _ & _ & _ & _ & _ & _ & Hcopy).
  rewrite E, Hcopy. split; reflexivity.
Defined.

(** The five ways [generate] ends for a logged-in caller. *)
Lemma generate_inv (free : list string) (secure : string -> string)
    (save page : string -> bool)
    (st : DB) (uid : Z) (u : User.t) (form : Form) (pic : option string)
    (post : Service) (now_reset now_generated now_insert : Z) :
  users st !! uid = Some u ->
  let u1 := User.reset_tokens_if_needed u now_reset in
  let out := generate free secure save page st uid form pic post
                      now_reset now_generated now_insert in
  (out = (save_user u1 st,
          flash "This template is only available for Pro or Ultimate users."
                "error" (Redirect "pricing")) /\
   (form_get form "template" "classic" ∉ free) /\
   User.plan u <> "pro" /\ User.plan u <> "ultimate") \/
  (out = (save_user u1 st,
          flash "You're out of tokens. Please buy more or wait for your daily reset."
                "error" (Redirect "pricing")) /\
   User.has_tokens u1 = false) \/
  (out = (save_user u1 st, mkResponse None (Abort 500)) /\
   upload_saved secure save pic = false) \/
  (out = (save_user u1 st, mkResponse None (Abort 400)) /\
   (form_item form "name" = None \/ form_item form "profession" = None)) \/
  (exists r,
     build_resume secure (save_user u1 st) u1 form pic post now_insert = Some r /\
     User.has_tokens u1 = true /\
     (form_get form "template" "classic" ∈ free \/
      User.plan u = "pro" \/ User.plan u = "ultimate") /\
     upload_saved secure save pic = true /\
     out = (mkDB (<[User.id u :=
                      User.set_last_generated (Some now_generated)
                        (User.deduct_token u1)]> (users st))
                 (<[next_id (resumes st) := r]> (resumes st))
                 (purchases st),
            flash "Resume generated successfully!" "success"
                  (if page ("resume_" +:+ form_get form "template" "classic"
                            +:+ ".html")
                   then Render ("resume_" +:+ form_get form "template" "classic"
                                +:+ ".html")
                   else Abort 500))).
Proof.
  intros Hu u1 out.
  destruct (reset_keeps_identity u now_reset) as (_ & Hplan & _).
  fold u1 in Hplan.
  assert (Hgate :
    (negb (bool_decide (form_get form "template" "classic" ∈ free)) &&
     negb (User.is_pro_user u1 || User.is_ultimate_user u1) = true /\
     (form_get form "template" "classic" ∉ free) /\
     User.plan u <> "pro" /\ User.plan u <> "ultimate") \/
    (negb (bool_decide (form_get form "template" "classic" ∈ free)) &&
     negb (User.is_pro_user u1 || User.is_ultimate_user u1) = false /\
     (form_get form "template" "classic" ∈ free \/
      User.plan u = "pro" \/ User.plan u = "ultimate"))).
  { unfold User.is_pro_user, User.is_ultimate_user. rewrite Hplan.
    repeat case_bool_decide; simpl; tauto. }
  destruct Hgate as [(Hb & Hgate) | (Hb & Hgate)].
  { left. split; [| exact Hgate]. unfold out, generate. rewrite Hu.
    fold u1. now rewrite Hb. }
  right. destruct (User.has_tokens u1) eqn:Htok.
  2:{ left. split; [| reflexivity]. unfold out, generate. rewrite Hu.
      fold u1. now rewrite Hb, Htok. }
  right. destruct (upload_saved secure save pic) eqn:Hsaved.
  2:{ left. split; [| reflexivity]. unfold out, generate. rewrite Hu.
      fold u1. now rewrite Hb, Htok, Hsaved. }
  right.
  destruct (build_resume secure (save_user u1 st) u1 form pic post now_insert)
    as [r|] eqn:Hbuild.
  - right. exists r. split; [reflexivity |]. split; [reflexivity |].
    split; [exact Hgate |]. split; [reflexivity |]. now apply generate_passes.
  - left. split.
    + unfold out, generate. rewrite Hu. fold u1.
      now rewrite Hb, Htok, Hsaved, Hbuild.
    + destruct (form_item form "name") as [name|] eqn:Hn; [| now left].
      destruct (form_item form "profession") as [profession|] eqn:Hp;
        [| now right].
      destruct (build_resume_ok secure (save_user u1 st) u1 form pic post
                  now_insert name profession Hn Hp) as (r & Hr & _).
      congruence.
Qed.

(** X14: a resume is stored only when both gates were passed. Whenever the
    resume table after [generate] differs from the one before, the caller is
    logged in, the template is free or the plan is pro or ultimate, the
    account had a token after the reset or is ultimate, and the upload, if
    any, was saved; the success message is flashed, and the answer is the
    rendered resume when the template's page exists and a 500 when it does
    not. The balance committed is then one less than after the reset, or the
    same on the ultimate plan. *)
Theorem generate_stores_only_past_the_gates
    (free : list string) (secure : string -> string)
    (save page : string -> bool) (st : DB) (uid : Z)
    (form : Form) (pic : option string) (post : Service)
    (now_reset now_generated now_insert : Z)
    (Hstored : resumes (generate free secure save page st uid form pic post
                                 now_reset now_generated now_insert).1
               <> resumes st) :
  exists u u',
    users st !! uid = Some u /\
    (form_get form "template" "classic" ∈ free \/
     User.plan u = "pro" \/ User.plan u = "ultimate") /\
    (0 < User.tokens (User.reset_tokens_if_needed u now_reset) \/
     User.plan u = "ultimate") /\
    upload_saved secure save pic = true /\
    (generate free secure save page st uid form pic post
              now_reset now_generated now_insert).2
    = flash "Resume generated successfully!" "success"
            (if page ("resume_" +:+ form_get form "template" "classic" +:+ ".html")
             then Render ("resume_" +:+ form_get form "template" "classic"
                          +:+ ".html")
             else Abort 500) /\
    users (generate free secure save page st uid form pic post
                    now_reset now_generated now_insert).1 !! User.id u = Some u' /\
    User.tokens u'
    = (if bool_decide (User.plan u = "ultimate")
       then User.tokens (User.reset_tokens_if_needed u now_reset)
       else User.tokens (User.reset_tokens_if_needed u now_reset) - 1).
Proof.
  destruct (users st !! uid) as [u|] eqn:Hu.
  2:{ exfalso. apply Hstored. unfold generate. now rewrite Hu. }
  destruct (reset_keeps_identity u now_reset) as (_ & Hplan & _).
  destruct (generate_inv free secure save page st uid u form pic post
              now_reset now_generated now_insert Hu)
    as [(E & _) | [(E & _) | [(E & _) | [(E & _) |
         (r & _ & Htok & Hgate & Hsaved & E)]]]];
    cbv zeta in E; rewrite E in *; try (now contradiction Hstored).
  set (u1 := User.reset_tokens_if_needed u now_reset) in *.
  assert (Hpos : 0 < User.tokens u1 \/ User.plan u = "ultimate").
  { unfold User.has_tokens in Htok.
    apply Bool.orb_true_iff in Htok as [H | H].
    - left. now apply Z.ltb_lt.
    - right. rewrite <- Hplan. now apply is_ultimate_user_true. }
  eexists u, _. split; [reflexivity |]. split; [exact Hgate |].
  split; [exact Hpos |]. split; [exact Hsaved |]. split; [reflexivity |].
  split; [simpl; apply lookup_insert_eq |].
  unfold User.deduct_token, User.is_ultimate_user. rewrite Hplan.
  case_bool_decide as Hult; [reflexivity |].
  cbn [negb User.tokens User.set_last_generated User.set_tokens].
  destruct Hpos as [Hpos | Hpos]; [subst u1; lia | contradiction].
Qed.

Lemma generate_stores_only_past_the_gates_witness :
  exists u',
    users (generate ["classic"] (fun s => s) (fun _ => true) (fun _ => false)
                    alice_db 1 alice_form None terse_service 1 2 3).1 !! 1
    = Some u' /\
    User.tokens u' = 2 /\
    (generate ["classic"] (fun s => s) (fun _ => true) (fun _ => false)
              alice_db 1 alice_form None terse_service 1 2 3).2
    = flash "Resume generated successfully!" "success" (Abort 500).
Proof.
  assert (Hne : resumes (generate ["classic"] (fun s => s) (fun _ => true)
                                  (fun _ => false) alice_db 1 alice_form
                                  None terse_service 1 2 3).1
                <> resumes alice_db).
  { intros H. apply (f_equal (fun m => m !! 1)) in H. discriminate H. }
  destruct (generate_stores_only_past_the_gates _ _ _ _ _ _ _ _ _ _ _ _ Hne)
    as (u & u' & Hu & _ & _ & _ & Hresp & Hlook & Htok).
  assert (E : u = alice).
  { assert (H : users alice_db !! 1 = Some alice) by reflexivity.
    rewrite H in Hu. now injection Hu. }
  subst u. exists u'. split; [exact Hlook |]. split; [exact Htok | exact Hresp].
Defined.

(** X15: deleting the resume that [generate] has just stored brings the
    resume table back to what it was, but not the token: the accounts stay
    as [generate] left them, and the ledger is untouched. *)
Theorem generate_then_delete
    (free : list string) (secure : string -> string)
    (save page : string -> bool) (st : DB) (uid : Z)
    (u : User.t) (form : Form) (pic : option string) (post : Service)
    (now_reset now_generated now_insert : Z) (st' : DB) (template : string)
    (Hu : users st !! uid = Some u) (Hid : User.id u = uid)
    (Hgen : generate free secure save page st uid form pic post
                     now_reset now_generated now_insert
            = (st', flash "Resume generated successfully!" "success"
                          (Render template))) :
  delete_resume st' uid (next_id (resumes st))
  = (mkDB (users st') (resumes st) (purchases st),
     flash "Resume deleted successfully!" "success" (Redirect "my_resumes")) /\
  exists u', users st' !! uid = Some u' /\
             User.tokens u' = User.tokens (User.deduct_token
                                (User.reset_tokens_if_needed u now_reset)).
Proof.
  destruct (generate_inv free secure save page st uid u form pic post
              now_reset now_generated now_insert Hu)
    as [(E & _) | [(E & _) | [(E & _) | [(E & _) |
         (r & Hbuild & _ & _ & _ & E)]]]];
    cbv zeta in E; rewrite E in Hgen; try discriminate Hgen.
  injection Hgen as <- _.
  apply build_resume_inv in Hbuild as (_ & _ & _ & _ & _ & Hown & _).
  destruct (reset_keeps_identity u now_reset) as (Hid1 & _).
  split.
  - unfold delete_resume. simpl. rewrite Hid, !lookup_insert_eq. simpl.
    assert (Hd : User.id (User.deduct_token
                            (User.reset_tokens_if_needed u now_reset))
                 = User.id u).
    { unfold User.deduct_token. destruct (negb _); simpl; congruence. }
    rewrite Hd, Hown, Hid1, Z.eqb_refl.
    simpl. now rewrite (delete_insert_id _ _ _ (next_id_fresh (resumes st))).
  - eexists. simpl. rewrite Hid. split; [apply lookup_insert_eq | reflexivity].
Qed.

Lemma generate_then_delete_witness :
  exists st',
    generate ["classic"] (fun s => s) (fun _ => true) (fun _ => true) alice_db 1 alice_form None
             terse_service 1 2 3
    = (st', flash "Resume generated successfully!" "success"
                  (Render "resume_classic.html")) /\
    resumes (delete_resume st' 1 1).1 = ∅ /\
    User.tokens <$> users (delete_resume st' 1 1).1 !! 1 = Some 2.
Proof.
  eexists. split; [reflexivity |].
  assert (Hu : users alice_db !! 1 = Some alice) by reflexivity.
  destruct (generate_then_delete ["classic"] (fun s => s) (fun _ => true) (fun _ => true) alice_db 1 alice
              alice_form None terse_service 1 2 3 _ _ Hu eq_refl eq_refl)
    as (E & _).
  change (next_id (resumes alice_db)) with 1 in E.
  rewrite E. split; reflexivity.
Defined.

(** ** Downloads *)





(** A page that is missing ends the download in a 500 before anything is
    written. *)
Lemma download_resume_missing_page
    (render : string -> Resume.t -> string) (page : string -> bool)
    (fs : gmap string string)
    (st : DB) (uid : Z) (u : User.t) (resume_id : Z) (r : Resume.t) :
  users st !! uid = Some u ->
  resumes st !! resume_id = Some r ->
  Resume.user_id r = User.id u ->
  page ("resume_" +:+ Resume.template r +:+ ".html") = false ->
  download_resume render page fs st uid resume_id
  = (fs, inl (mkResponse None (Abort 500))).
Proof.
  intros Hu Hr Hown Hpage. unfold download_resume.
  now rewrite Hu, Hr, Hown, Z.eqb_refl, Hpage.
Qed.

(** ** Integrity of the accounts table *)

Lemma users_ok_update (st st' : DB) (k : Z) (u u' : User.t) :
  users_ok st -> users st !! k = Some u ->
  users st' = <[User.id u := u']> (users st) ->
  User.id u' = User.id u -> User.email u' = User.email u ->
  User.username u' = User.username u ->
  users_ok st'.
Proof.
  intros (Hk & He & Hn) Hu E Hid Hem Hun.
  pose proof (Hk k u Hu) as Hku. subst k.
  unfold users_ok. rewrite E. split; [| split].
  - intros k v H. apply lookup_insert_Some in H as [[<- <-] | [_ H]]; auto.
  - intros k1 k2 v1 v2 H1 H2 Heq.
    apply lookup_insert_Some in H1 as [[<- <-] | [N1 H1]];
      apply lookup_insert_Some in H2 as [[<- <-] | [N2 H2]]; auto.
    + apply (He _ _ u v2 Hu H2). congruence.
    + apply (He _ _ v1 u H1 Hu). congruence.
    + now apply (He _ _ v1 v2).
  - intros k1 k2 v1 v2 H1 H2 Heq.
    apply lookup_insert_Some in H1 as [[<- <-] | [N1 H1]];
      apply lookup_insert_Some in H2 as [[<- <-] | [N2 H2]]; auto.
    + apply (Hn _ _ u v2 Hu H2). congruence.
    + apply (Hn _ _ v1 u H1 Hu). congruence.
    + now apply (Hn _ _ v1 v2).
Qed.

Lemma users_ok_same (st st' : DB) :
  users_ok st -> users st' = users st -> users_ok st'.
Proof. unfold users_ok. now intros H ->. Qed.

Lemma users_ok_insert_new (st st' : DB) (u : User.t) :
  users_ok st ->
  users st' = <[User.id u := u]> (users st) ->
  users st !! User.id u = None ->
  ~ map_Exists (fun _ v => User.email v = User.email u) (users st) ->
  ~ map_Exists (fun _ v => User.username v = User.username u) (users st) ->
  users_ok st'.
Proof.
  intros (Hk & He & Hn) E Hfresh Hem Hun.
  assert (Hem' : forall k v, users st !! k = Some v -> User.email v <> User.email u).
  { intros k v H Heq. apply Hem. now exists k, v. }
  assert (Hun' : forall k v, users st !! k = Some v ->
                             User.username v <> User.username u).
  { intros k v H Heq. apply Hun. now exists k, v. }
  unfold users_ok. rewrite E. split; [| split].
  - intros k v H. apply lookup_insert_Some in H as [[<- <-] | [_ H]]; auto.
  - intros k1 k2 v1 v2 H1 H2 Heq.
    apply lookup_insert_Some in H1 as [[<- <-] | [N1 H1]];
      apply lookup_insert_Some in H2 as [[<- <-] | [N2 H2]]; auto.
    + symmetry in Heq. now destruct (Hem' _ _ H2).
    + now destruct (Hem' _ _ H1).
    + now apply (He _ _ v1 v2).
  - intros k1 k2 v1 v2 H1 H2 Heq.
    apply lookup_insert_Some in H1 as [[<- <-] | [N1 H1]];
      apply lookup_insert_Some in H2 as [[<- <-] | [N2 H2]]; auto.
    + symmetry in Heq. now destruct (Hun' _ _ H2).
    + now destruct (Hun' _ _ H1).
    + now apply (Hn _ _ v1 v2).
Qed.

Lemma deduct_keeps_identity (u : User.t) :
  User.id (User.deduct_token u) = User.id u /\
  User.email (User.deduct_token u) = User.email u /\
  User.username (User.deduct_token u) = User.username u.
Proof. unfold User.deduct_token. case_match; simpl; auto. Qed.

(** X17: the routes keep the accounts table well formed. If every account
    is stored under its own id and no two accounts share an email or a
    username, the same holds after [register], [generate], [buy_token] and
    [upgrade], whatever their arguments and outcome. *)
Theorem users_ok_preserved (st : DB) (Hok : users_ok st) :
  (forall hash lower valid first_name last_name email password now,
     users_ok (register hash lower st valid first_name last_name email password now).1) /\
  (forall free secure save page uid form pic post now_reset now_generated now_insert,
     users_ok (generate free secure save page st uid form pic post
                        now_reset now_generated now_insert).1) /\
  (forall uid count now, users_ok (buy_token st uid count now).1) /\
  (forall uid plan now, users_ok (upgrade st uid plan now).1).
Proof.
  split; [| split; [| split]].
  - intros. unfold register. destruct valid; [| exact Hok].
    case_bool_decide as He; [exact Hok |].
    case_bool_decide as Hn; [exact Hok |].
    eapply users_ok_insert_new;
      [exact Hok | reflexivity | apply next_id_fresh | exact He | exact Hn].
  - intros.
    destruct (users st !! uid) as [u|] eqn:Hu.
    2:{ unfold generate. now rewrite Hu. }
    destruct (reset_keeps_identity u now_reset) as (Hid & _ & Hem & Hun).
    destruct (deduct_keeps_identity (User.reset_tokens_if_needed u now_reset))
      as (Hid2 & Hem2 & Hun2).
    destruct (generate_inv free secure save page st uid u form pic post
                now_reset now_generated now_insert Hu)
      as [(E & _) | [(E & _) | [(E & _) | [(E & _) | (r & _ & _ & _ & _ & E)]]]];
      cbv zeta in E; rewrite E; simpl.
    1-4: eapply (users_ok_update st _ uid u);
           [exact Hok | exact Hu | simpl; now rewrite Hid | | |]; assumption.
    eapply (users_ok_update st _ uid u);
      [exact Hok | exact Hu | reflexivity | | |]; simpl; congruence.
  - intros. unfold buy_token.
    destruct (users st !! uid) as [u|] eqn:Hu; [| exact Hok].
    destruct (_ =? 0); [exact Hok |].
    eapply (users_ok_update st _ uid u);
      [exact Hok | exact Hu | reflexivity | | |]; reflexivity.
  - intros. unfold upgrade.
    destruct (users st !! uid) as [u|] eqn:Hu; [| exact Hok].
    repeat case_bool_decide; try exact Hok;
      (eapply (users_ok_update st _ uid u);
       [exact Hok | exact Hu | reflexivity | | |]; reflexivity).
Qed.

Lemma users_ok_preserved_witness :
  users_ok alice_db /\
  users_ok (register (fun p => p) ascii_lower alice_db true "Bob" "Roe" "bob@example.org"
                     "secret" 9).1 /\
  users_ok (upgrade alice_db 1 "pro" 9).1.
Proof.
  assert (Hok : users_ok alice_db).
  { assert (H : forall k v, users alice_db !! k = Some v -> k = 1 /\ v = alice).
    { intros k v Hk.
      change (({[1 := alice]} : gmap Z User.t) !! k = Some v) in Hk.
      apply lookup_singleton_Some in Hk as [<- <-]. now split. }
    split; [| split].
    - intros k v Hk. now destruct (H k v Hk) as [-> ->].
    - intros k1 k2 v1 v2 H1 H2 _.
      destruct (H k1 v1 H1) as [-> _]. now destruct (H k2 v2 H2) as [-> _].
    - intros k1 k2 v1 v2 H1 H2 _.
      destruct (H k1 v1 H1) as [-> _]. now destruct (H k2 v2 H2) as [-> _]. }
  destruct (users_ok_preserved alice_db Hok) as (Hreg & _ & _ & Hup).
  split; [exact Hok |]. split; [apply Hreg | apply Hup].
Defined.

(** ** Registration and login *)

Lemma register_created (hash lower : string -> string) (st st' : DB)
    (first_name last_name email password : string) (now : Z) :
  register hash lower st true first_name last_name email password now
  = (st', flash "Account created successfully!" "success" (Redirect "index")) ->
  st' = save_user (new_user hash lower st first_name last_name email password now) st /\
  ~ map_Exists (fun _ v => User.email v = email) (users st) /\
  ~ map_Exists (fun _ v => User.username v
                           = lower first_name +:+ "." +:+ lower last_name)
               (users st).
Proof.
  unfold register. case_bool_decide as He; [discriminate |].
  case_bool_decide as Hn; [discriminate |].
  intros [= <-]. now repeat split.
Qed.

Lemma user_by_email_Some (st : DB) (email : string) (u : User.t) :
  user_by_email st email = Some u ->
  (exists k, users st !! k = Some u) /\ User.email u = email.
Proof.
  unfold user_by_email. intros H. apply head_Some_elem_of in H.
  apply list_elem_of_In, filter_In in H as [Hin He].
  apply bool_decide_eq_true in He. split; [| exact He].
  apply in_map_iff in Hin as ([k v] & <- & Hin).
  exists k. now apply elem_of_map_to_list, list_elem_of_In.
Qed.

Lemma user_by_email_None (st : DB) (email : string) :
  user_by_email st email = None ->
  forall k u, users st !! k = Some u -> User.email u <> email.
Proof.
  unfold user_by_email. intros H k u Hk He. apply head_None in H.
  assert (Hin : In u (List.filter (fun v => bool_decide (User.email v = email))
                                  (map snd (map_to_list (users st))))).
  { apply filter_In. split; [| now apply bool_decide_eq_true].
    apply in_map_iff. exists (k, u). split; [reflexivity |].
    now apply list_elem_of_In, elem_of_map_to_list. }
  rewrite H in Hin. destruct Hin.
Qed.

(** X18: registering and then logging in is a round trip. After a
    registration that succeeded, logging in with the same email and password
    opens a session for the new account, as long as [check_password_hash]
    accepts what [generate_password_hash] made of that password; with a
    password it rejects, no session is opened and the generic error is
    flashed. *)
Theorem register_then_login
    (hash lower : string -> string) (check : string -> string -> bool)
    (st st' : DB) (first_name last_name email password : string) (now : Z)
    (Hcheck : check (hash password) password = true)
    (Hreg : register hash lower st true first_name last_name email password now
            = (st', flash "Account created successfully!" "success"
                          (Redirect "index"))) :
  login check st' true email password
  = (Some (next_id (users st)),
     flash "Logged in successfully." "success" (Redirect "index")) /\
  forall wrong, check (hash password) wrong = false ->
    login check st' true email wrong
    = (None, flash "Invalid email or password." "danger" (Render "login.html")).
Proof.
  apply register_created in Hreg as (-> & He & _).
  set (u := new_user hash lower st first_name last_name email password now).
  assert (Hfind : user_by_email (save_user u st) email = Some u).
  { destruct (user_by_email (save_user u st) email) as [v|] eqn:E.
    - apply user_by_email_Some in E as [(k & Hk) Hv].
      simpl in Hk. apply lookup_insert_Some in Hk as [[_ <-] | [_ Hk]];
        [reflexivity |].
      destruct He. now exists k, v.
    - exfalso.
      apply (user_by_email_None _ _ E (User.id u) u); [| reflexivity].
      simpl. apply lookup_insert_eq. }
  split.
  - unfold login. rewrite Hfind. simpl. now rewrite Hcheck.
  - intros wrong Hwrong. unfold login. rewrite Hfind. simpl. now rewrite Hwrong.
Qed.

Lemma register_then_login_witness :
  exists st',
    register (fun p => "h:" +:+ p) ascii_lower alice_db true "Bob" "Roe" "bob@example.org"
             "secret" 9
    = (st', flash "Account created successfully!" "success" (Redirect "index")) /\
    login (fun h p => String.eqb h ("h:" +:+ p)) st' true "bob@example.org" "secret"
    = (Some 2, flash "Logged in successfully." "success" (Redirect "index")).
Proof.
  eexists. split; [vm_compute; reflexivity |].
  refine (proj1 (register_then_login (fun p => "h:" +:+ p) ascii_lower
                   (fun h p => String.eqb h ("h:" +:+ p))
                   alice_db _ "Bob" "Roe" "bob@example.org" "secret" 9 _ _)).
  - reflexivity.
  - vm_compute. reflexivity.
Defined.

(** X19: two people whose first and last names agree up to letter case
    cannot both register. After one registration succeeded, a second one
    under such a name ends in a 500 even with an email nobody uses, because
    the derived [username] is taken; nothing is stored. *)
Theorem register_same_name_fails
    (hash lower : string -> string) (st st' : DB)
    (first_name last_name email password : string) (now : Z)
    (first_name' last_name' email' password' : string) (now' : Z)
    (Hreg : register hash lower st true first_name last_name email password now
            = (st', flash "Account created successfully!" "success"
                          (Redirect "index")))
    (Hfirst : lower first_name' = lower first_name)
    (Hlast : lower last_name' = lower last_name)
    (Hemail : email' <> email)
    (Hunused : forall k v, users st !! k = Some v -> User.email v <> email') :
  register hash lower st' true first_name' last_name' email' password' now'
  = (st', mkResponse None (Abort 500)).
Proof.
  apply register_created in Hreg as (-> & _ & _).
  set (u := new_user hash lower st first_name last_name email password now).
  unfold register.
  rewrite bool_decide_eq_false_2.
  2:{ intros (k & v & Hk & Hv). simpl in Hk.
      apply lookup_insert_Some in Hk as [[_ <-] | [_ Hk]].
      - simpl in Hv. congruence.
      - now apply (Hunused k v). }
  rewrite bool_decide_eq_true_2; [reflexivity |].
  exists (User.id u), u. split; [simpl; apply lookup_insert_eq |].
  simpl. now rewrite Hfirst, Hlast.
Qed.

Lemma register_same_name_fails_witness :
  exists st',
    register (fun p => p) ascii_lower alice_db true "Bob" "Roe" "bob@example.org" "secret" 9
    = (st', flash "Account created successfully!" "success" (Redirect "index")) /\
    register (fun p => p) ascii_lower st' true "BOB" "roe" "bob.roe@example.com" "hunter22" 10
    = (st', mkResponse None (Abort 500)).
Proof.
  eexists. split; [vm_compute; reflexivity |].
  apply (register_same_name_fails (fun p => p) ascii_lower alice_db _ "Bob" "Roe"
           "bob@example.org" "secret" 9).
  - vm_compute. reflexivity.
  - reflexivity.
  - reflexivity.
  - discriminate.
  - intros k v Hk.
    change (({[1 := alice]} : gmap Z User.t) !! k = Some v) in Hk.
    apply lookup_singleton_Some in Hk as [_ <-]. discriminate.
Defined.

(** ** The ledger and the balance *)

Lemma keeps_refl {A} (m : gmap Z A) : keeps m m.
Proof. now intros k x H. Qed.

Lemma keeps_insert_fresh {A} (m : gmap Z A) (x : A) :
  keeps m (<[next_id m := x]> m).
Proof.
  intros k y H. rewrite lookup_insert_ne; [exact H |].
  intros <-. now rewrite next_id_fresh in H.
Qed.

(** X20: the ledger is append-only. No route changes or removes a ledger
    row: [buy_token] and [upgrade] keep every row there is, and
    [delete_resume], [edit_resume] and [register] leave the ledger as it is;
    a row that is new after [buy_token] or [upgrade] bills 50, 100, 199 or
    499 to the caller. *)
Theorem ledger_append_only (st : DB) :
  (forall uid count now,
     keeps (purchases st) (purchases (buy_token st uid count now).1)) /\
  (forall uid plan now,
     keeps (purchases st) (purchases (upgrade st uid plan now).1)) /\
  (forall uid resume_id,
     purchases (delete_resume st uid resume_id).1 = purchases st) /\
  (forall secure save uid resume_id method duplicate form pic now,
     purchases (edit_resume secure save st uid resume_id method duplicate form pic now).1
     = purchases st) /\
  (forall hash lower valid first_name last_name email password now,
     purchases (register hash lower st valid first_name last_name email password now).1
     = purchases st) /\
  (forall uid count plan now k p,
     purchases st !! k = None ->
     purchases (buy_token st uid count now).1 !! k = Some p \/
     purchases (upgrade st uid plan now).1 !! k = Some p ->
     (exists u, users st !! uid = Some u /\ Purchase.user_id p = User.id u) /\
     Purchase.amount p ∈ [50; 100; 199; 499]).
Proof.
  split; [| split; [| split; [| split; [| split]]]].
  - intros. unfold buy_token. repeat case_match; simpl;
      first [apply keeps_refl | apply keeps_insert_fresh].
  - intros. unfold upgrade. repeat case_match; simpl;
      first [apply keeps_refl | apply keeps_insert_fresh].
  - intros. unfold delete_resume. now repeat case_match.
  - intros. unfold edit_resume. now repeat case_match.
  - intros. unfold register. now repeat case_match.
  - intros uid count plan now k p Hnone H.
    unfold buy_token, upgrade in H.
    destruct (users st !! uid) as [u|] eqn:Hu.
    2:{ simpl in H. destruct H; congruence. }
    split; [exists u; split; [reflexivity |] |]; destruct H as [H | H].
    + destruct (price_map !! count) as [price|]; simpl in H;
        [destruct (price =? 0); simpl in H |]; try congruence.
      apply lookup_insert_Some in H as [[_ <-] | [_ H]]; [reflexivity | congruence].
    + repeat case_bool_decide; simpl in H; try congruence;
        (apply lookup_insert_Some in H as [[_ <-] | [_ H]];
         [reflexivity | congruence]).
    + destruct (price_map !! count) as [price|] eqn:Hp; simpl in H;
        [destruct (price =? 0); simpl in H |]; try congruence.
      apply lookup_insert_Some in H as [[_ <-] | [_ H]]; [| congruence].
      simpl. apply price_map_Some in Hp as [[_ ->] | [_ ->]];
        repeat constructor.
    + repeat case_bool_decide; simpl in H; try congruence;
        (apply lookup_insert_Some in H as [[_ <-] | [_ H]]; [| congruence]);
        simpl; repeat constructor.
Qed.

(** X21: tokens bought or granted do not outlive the next daily reset. On the
    free and pro plans, a reset that comes due after [buy_token] or after the
    pro [upgrade] sets the balance to the plan's 3 or 15, whatever had been
    added. *)
Theorem reset_discards_added_tokens
    (st : DB) (uid : Z) (u : User.t) (count price now last later : Z)
    (Hu : users st !! uid = Some u) (Hid : User.id u = uid)
    (Hplan : User.plan u = "free" \/ User.plan u = "pro")
    (Hpack : price_map !! count = Some price)
    (Hlast : User.last_token_reset u = Some last)
    (Hdue : day <= later - last) :
  (exists bought,
     users (buy_token st uid count now).1 !! uid = Some bought /\
     User.tokens bought = User.tokens u + count /\
     User.tokens (User.reset_tokens_if_needed bought later)
     = (if bool_decide (User.plan u = "free") then 3 else 15)) /\
  (exists upgraded,
     users (upgrade st uid "pro" now).1 !! uid = Some upgraded /\
     User.tokens upgraded = User.tokens u + 15 /\
     User.tokens (User.reset_tokens_if_needed upgraded later) = 15).
Proof.
  assert (Hreset : forall v, User.last_token_reset v = Some last ->
            (User.plan v = "free" ->
             User.tokens (User.reset_tokens_if_needed v later) = 3) /\
            (User.plan v = "pro" ->
             User.tokens (User.reset_tokens_if_needed v later) = 15)).
  { intros v Hv.
    assert (D : User.reset_due v later = true).
    { apply reset_due_true. right. now exists last. }
    destruct (reset_when_due v later D) as (_ & Hfree & Hpro & _). now split. }
  split.
  - exists (User.set_tokens (User.tokens u + count) u).
    assert (Hnz : (price =? 0) = false).
    { apply Z.eqb_neq. apply price_map_Some in Hpack. lia. }
    split.
    { unfold buy_token. rewrite Hu, Hpack. simpl. rewrite Hnz. simpl.
      rewrite Hid. apply lookup_insert_eq. }
    split; [reflexivity |].
    destruct (Hreset (User.set_tokens (User.tokens u + count) u) Hlast)
      as [Hfree Hpro].
    destruct Hplan as [H | H].
    + rewrite (bool_decide_eq_true_2 _ H). now apply Hfree.
    + rewrite bool_decide_eq_false_2 by (rewrite H; discriminate). now apply Hpro.
  - exists (User.set_plan "pro" (User.set_tokens (User.tokens u + 15) u)).
    split.
    { rewrite (upgrade_pro_step st uid u now Hu). simpl. rewrite Hid.
      apply lookup_insert_eq. }
    split; [reflexivity |].
    now apply (Hreset (User.set_plan "pro" (User.set_tokens (User.tokens u + 15) u))).
Qed.

Lemma reset_discards_added_tokens_witness :
  exists bought,
    users (buy_token alice_db 1 5 7).1 !! 1 = Some bought /\
    User.tokens bought = 8 /\
    User.tokens (User.reset_tokens_if_needed bought day) = 3.
Proof.
  assert (Hu : users alice_db !! 1 = Some alice) by reflexivity.
  assert (Hplan : User.plan alice = "free" \/ User.plan alice = "pro")
    by (left; reflexivity).
  assert (Hpack : price_map !! 5 = Some 100) by reflexivity.
  assert (Hdue : day <= day - 0) by (unfold day; lia).
  destruct (reset_discards_added_tokens alice_db 1 alice 5 100 7 0 day
              Hu eq_refl Hplan Hpack eq_refl Hdue)
    as ((bought & Hb & Ht & Hr) & _).
  exists bought. split; [exact Hb |]. split; [exact Ht | exact Hr].
Defined.

Lemma generate_keeps_rows_witness :
  resumes (generate ["classic"] (fun s => s) (fun _ => true) (fun _ => true) shared_db 1 alice_form None
                    terse_service 1 2 3).1 !! 1 = Some bobs_resume.
Proof.
  destruct (generate_keeps_rows ["classic"] (fun s => s) (fun _ => true) (fun _ => true) shared_db 1 alice_form
              None terse_service 1 2 3) as (Hkeep & _).
  apply Hkeep. reflexivity.
Defined.

Lemma ledger_append_only_witness :
  exists p, purchases (upgrade (buy_token alice_db 1 5 7).1 1 "pro" 8).1 !! 1
            = Some p /\ Purchase.amount p = 100.
Proof.
  destruct (ledger_append_only (buy_token alice_db 1 5 7).1) as (_ & Hup & _).
  eexists. split; [apply Hup; reflexivity | reflexivity].
Defined.

(** ** Validated registrations *)

Lemma length_between_true (min max : Z) (data : string) :
  length_between min max data = true ->
  min <= Z.of_nat (Py.len data) /\
  (max <> -1 -> Z.of_nat (Py.len data) <= max).
Proof.
  unfold length_between. intros H.
  apply Bool.andb_true_iff in H as [Hmin Hmax].
  apply Z.leb_le in Hmin. split; [exact Hmin |]. intros Hne.
  apply Bool.orb_true_iff in Hmax as [Hmax | Hmax].
  - apply Z.eqb_eq in Hmax. contradiction.
  - now apply Z.leb_le.
Qed.

(** X22: an account is created only from a submitted form that passed every
    validator. What is stored then is the form's: first and last name hold 2
    to 30 characters and are not blank, the username is the two names
    lowered and joined by a dot, the password had at least 6 characters and
    equalled its confirmation, and the email passed both of its checks. A
    form that does not validate changes nothing and shows the registration
    page again. *)
Theorem register_form_validated
    (email_valid email_format : string -> bool) (hash lower : string -> string)
    (st : DB) (is_submitted csrf_ok : bool) (f : RegisterForm.t) (now : Z) :
  (forall st',
     register_form email_valid email_format hash lower st is_submitted csrf_ok f now
     = (st', flash "Account created successfully!" "success" (Redirect "index")) ->
     exists u,
       users st' = <[next_id (users st) := u]> (users st) /\
       users st !! next_id (users st) = None /\
       (User.plan u, User.tokens u, User.last_token_reset u, User.last_generated u)
       = ("free", 3, Some now, None) /\
       (User.first_name u, User.last_name u, User.email u)
       = (RegisterForm.first_name f, RegisterForm.last_name f,
          RegisterForm.email f) /\
       (2 <= Py.len (User.first_name u) <= 30)%nat /\
       (2 <= Py.len (User.last_name u) <= 30)%nat /\
       Py.strip (User.first_name u) <> "" /\
       Py.strip (User.last_name u) <> "" /\
       User.username u = lower (RegisterForm.first_name f) +:+ "." +:+
                         lower (RegisterForm.last_name f) /\
       (6 <= Py.len (RegisterForm.password f))%nat /\
       RegisterForm.confirm_password f = RegisterForm.password f /\
       User.password u = hash (RegisterForm.password f) /\
       email_valid (User.email u) = true /\
       email_format (User.email u) = true /\
       is_submitted = true /\ csrf_ok = true) /\
  (RegisterForm.validate_on_submit email_valid email_format is_submitted csrf_ok f
   = false ->
   register_form email_valid email_format hash lower st is_submitted csrf_ok f now
   = (st, mkResponse None (Render "register.html"))).
Proof.
  unfold register_form. split.
  - intros st' Hreg.
    destruct (RegisterForm.validate_on_submit email_valid email_format
                is_submitted csrf_ok f) eqn:V; [| discriminate Hreg].
    apply register_created in Hreg as (-> & _ & _).
    unfold RegisterForm.validate_on_submit, RegisterForm.validate,
      data_required in V.
    repeat match goal with
           | H : _ && _ = true |- _ => apply Bool.andb_true_iff in H as [? ?]
           end.
    repeat match goal with
           | H : length_between _ _ _ = true |- _ =>
               apply length_between_true in H as [? ?]
           | H : bool_decide _ = true |- _ => apply bool_decide_eq_true in H
           end.
    assert (Hfilled : forall s, Py.truthy (Py.strip s) = true -> Py.strip s <> "").
    { intros s Hs E. rewrite E in Hs. discriminate Hs. }
    eexists. split; [reflexivity |]. split; [apply next_id_fresh |].
    cbn [User.plan User.tokens User.last_token_reset User.last_generated
         User.first_name User.last_name User.username User.password User.email
         new_user].
    repeat split; try assumption; try lia; now apply Hfilled.
  - intros V. now rewrite V.
Qed.

Lemma register_form_validated_witness :
  exists st' u,
    register_form (fun _ => true) (fun _ => true) (fun p => p) ascii_lower
                  alice_db true true
                  (RegisterForm.mk "Bob" "Roe" "bob@example.org" "secret" "secret") 9
    = (st', flash "Account created successfully!" "success" (Redirect "index")) /\
    users st' !! 2 = Some u /\ User.username u = "bob.roe" /\
    register_form (fun _ => true) (fun _ => true) (fun p => p) ascii_lower
                  alice_db true true
                  (RegisterForm.mk "B" "Roe" "bob@example.org" "secret" "secret") 9
    = (alice_db, mkResponse None (Render "register.html")).
Proof.
  destruct (register_form_validated (fun _ => true) (fun _ => true) (fun p => p)
              ascii_lower alice_db true true
              (RegisterForm.mk "B" "Roe" "bob@example.org" "secret" "secret") 9)
    as (_ & Hbad).
  eexists _, _. split; [vm_compute; reflexivity |].
  split; [vm_compute; reflexivity |]. split; [reflexivity |].
  apply Hbad. reflexivity.
Defined.

(** ** Viewing what was generated *)

(** X23: the resume [generate] has just stored can be viewed by its owner
    under the next free id, and [view_resume] renders the very template page
    that [generate] rendered, the one named after the form's template. *)
Theorem generate_then_view
    (free : list string) (secure : string -> string)
    (save page_exists : string -> bool) (st : DB) (uid : Z)
    (u : User.t) (form : Form) (pic : option string) (post : Service)
    (now_reset now_generated now_insert : Z) (st' : DB) (page : string)
    (Hu : users st !! uid = Some u) (Hid : User.id u = uid)
    (Hgen : generate free secure save page_exists st uid form pic post
                     now_reset now_generated now_insert
            = (st', flash "Resume generated successfully!" "success"
                          (Render page))) :
  view_resume page_exists st' uid (next_id (resumes st))
  = mkResponse None (Render page) /\
  page = "resume_" +:+ form_get form "template" "classic" +:+ ".html".
Proof.
  destruct (generate_inv free secure save page_exists st uid u form pic post
              now_reset now_generated now_insert Hu)
    as [(E & _) | [(E & _) | [(E & _) | [(E & _) |
         (r & Hbuild & _ & _ & _ & E)]]]];
    cbv zeta in E; rewrite E in Hgen; try discriminate Hgen.
  clear E.
  destruct (page_exists ("resume_" +:+ form_get form "template" "classic"
                         +:+ ".html")) eqn:Hpage; [| discriminate Hgen].
  injection Hgen as <- <-.
  apply build_resume_inv in Hbuild as (_ & _ & _ & _ & _ & Hown & Htmpl & _).
  destruct (reset_keeps_identity u now_reset) as (Hid1 & _).
  destruct (deduct_keeps_identity (User.reset_tokens_if_needed u now_reset))
    as (Hd & _).
  split; [| reflexivity].
  unfold view_resume, owned_resume. simpl.
  rewrite Hid, !lookup_insert_eq. simpl.
  rewrite Hd, Hown, Hid1, Z.eqb_refl. now rewrite Htmpl, Hpage.
Qed.

Lemma generate_then_view_witness :
  exists st',
    generate ["classic"] (fun s => s) (fun _ => true) (fun _ => true)
             alice_db 1 alice_form None terse_service 1 2 3
    = (st', flash "Resume generated successfully!" "success"
                  (Render "resume_classic.html")) /\
    view_resume (fun _ => true) st' 1 1
    = mkResponse None (Render "resume_classic.html").
Proof.
  eexists. split; [reflexivity |].
  assert (Hu : users alice_db !! 1 = Some alice) by reflexivity.
  destruct (generate_then_view ["classic"] (fun s => s) (fun _ => true)
              (fun _ => true) alice_db 1 alice
              alice_form None terse_service 1 2 3 _ _ Hu eq_refl eq_refl)
    as (E & _).
  exact E.
Defined.
